(** * A shallow embedding of the teleprompter / recorder controller

    The component under study is the single React function component of the
    application (the file that imports [lucide-react] and [motion/react]).
    Its [useState] cells and [useRef] boxes become the fields of one record,
    [App]; every event handler of the component becomes a function
    [App -> App].  The browser objects the handlers talk to (the scroll
    container, media recorders, object URLs, media tracks, pending
    [getUserMedia] promises, the console) live in the same record, below the
    component's own fields, so that a handler is a plain state transformer.

    Conventions.
    - In the component state, JavaScript numbers are exact rationals ([Q]);
      the constants [0.3] and [1.5] of the source are [3#10] and [3#2].
      This serves the properties that rounding cannot change (bounds, which
      branch a handler takes at [0], what is left untouched).  Where the
      value a frame computes matters, the frame is taken in binary64
      ([animate64], on primitive floats), as JavaScript computes it.
    - A recorder changes state only through the [start()] and [stop()] calls
      of the component; what the browser does to a recorder on its own
      reaches the component as [DataAvailable] and [RecorderStopped] events.
    - A [setState] call takes effect at once: the closure the next event sees
      is the one React rebuilds from the updated state.
    - An [await] splits a handler: the part before it runs in the event that
      calls the handler, the part after it runs in the event that settles
      the promise.
    - A browser call fails only where the source has a [try]/[catch] for it;
      the outcome is then an argument of the settling event. *)

From Stdlib Require Import List String Bool Arith Lia.
From Stdlib Require Import QArith Qminmax Lqa.
From Stdlib Require Import Floats.
From Stdlib Require Import ZArith NArith DecimalString.
Import ListNotations.

Local Open Scope string_scope.
Local Open Scope Q_scope.
Local Open Scope list_scope.

(** ** Browser data *)

(** [Element]: the four properties of the scroll container the component
    reads or writes. *)
Record Element := {
  scrollTop : Q;
  scrollHeight : Q;
  clientHeight : Q;
  offsetTop : Q
}.

Definition TrackId := nat.

(** [MediaStream]: a stream is known by the tracks [getTracks()] returns. *)
Record MediaStream := { getTracks : list TrackId }.

Record VideoElement := { srcObject : option MediaStream }.

(** [Blob]: content and media type; [e.data] of a [dataavailable] event is a
    blob as well. *)
Record Blob := {
  blobBytes : list Byte.byte;
  blobType : string
}.

Definition size (b : Blob) : nat := List.length (blobBytes b).

(** [new Blob(parts, { type })] concatenates the parts in order. *)
Definition newBlob (parts : list Blob) (type : string) : Blob :=
  {| blobBytes := List.concat (map blobBytes parts); blobType := type |}.

(** An object URL is the index of its blob in the browser's URL store. *)
Definition Url := nat.

Inductive RecordingState := Inactive | Recording.

Record MediaRecorder := {
  recStream : MediaStream;
  mimeType : string;
  state : RecordingState;
  timeslice : option nat
}.

Definition RecorderId := nat.

Inductive FacingMode := user | environment.

(** The two constraint sets the component passes to [getUserMedia]:
    [Flexible fm] is [{ video: { facingMode: { ideal: fm }, width: { ideal:
    1280 }, height: { ideal: 720 } }, audio: { echoCancellation: false,
    noiseSuppression: false, autoGainControl: true } }], [Basic] is
    [{ video: true, audio: true }]. *)
Inductive Constraints := Flexible (fm : FacingMode) | Basic.

(** Calls into the browser that leave no trace in the component's state are
    recorded, in order, in [trace]. *)
Inductive Effect :=
| TrackStop (t : TrackId)
| GetUserMedia (c : Constraints)
| VideoPlay
| ConsoleError (msg : string)
| ConsoleWarn (msg : string)
| NavigatorShare (url : string)
| ClipboardWriteText (data : string)
| Alert (msg : string).

Record TeleprompterConfig := {
  fontSize : Q;
  color : string;
  speed : Q;
  opacity : Q
}.

(** ** The platform

    What the browser decides and the component only observes:
    [MediaRecorder.isTypeSupported], the offset an element reports after
    [el.scrollTop = v], whether [navigator.share] exists, and
    [window.location.href]. *)
Class Platform := {
  isTypeSupported : string -> bool;
  scrolledTo : Element -> Q -> Q;
  hasShare : bool;
  locationHref : string
}.

Definition maxScrollOf (el : Element) : Q := scrollHeight el - clientHeight el.

(** The scrolling rule of the DOM: an assignment to [scrollTop] scrolls to
    the nearest offset of the scrollable range, and an offset of the range
    that needs no scrolling adjustment is kept ([0] is always one). *)
Definition clamps_scrollTop (P : Platform) : Prop :=
  forall el v, clientHeight el <= scrollHeight el ->
    0 <= scrolledTo el v <= maxScrollOf el.

Definition keeps_origin (P : Platform) : Prop :=
  forall el, scrolledTo el 0 == 0.

(** The reference browser used for the concrete runs below: it clamps
    exactly, records only into WebM, and has no share sheet. *)
Definition clampTo (el : Element) (v : Q) : Q :=
  Qmax 0 (Qmin v (maxScrollOf el)).

Definition webmOnly (type : string) : bool :=
  String.eqb type "video/webm".

Definition desktop : Platform := {|
  isTypeSupported := webmOnly;
  scrolledTo := clampTo;
  hasShare := false;
  locationHref := "https://teleprompter.example/"
|}.

(** A mobile browser: MP4 recording and a share sheet. *)
Definition mp4Only (type : string) : bool :=
  String.eqb type "video/mp4".

Definition mobile : Platform := {|
  isTypeSupported := mp4Only;
  scrolledTo := clampTo;
  hasShare := true;
  locationHref := "https://teleprompter.example/"
|}.

(** An element that stores whatever is written to it; no browser behaves so,
    it serves to show which bounds are the component's own. *)
Definition rawStore : Platform := {|
  isTypeSupported := webmOnly;
  scrolledTo := fun _ v => v;
  hasShare := false;
  locationHref := "https://teleprompter.example/"
|}.

(** ** The component state *)

Record App := {
  (* Camera & Recording State *)
  stream : option MediaStream;
  isRecording : bool;
  facingMode : FacingMode;
  videoUrl : option Url;
  recordedChunksRef : list Blob;
  (* Teleprompter State *)
  text : string;
  isEditing : bool;
  isScrolling : bool;
  config : TeleprompterConfig;
  showSettings : bool;
  (* Refs *)
  videoRef : option VideoElement;
  mediaRecorderRef : option RecorderId;
  scrollContainerRef : option Element;
  requestRef : option nat;
  streamRef : option MediaStream;
  (* Dragging State Refs *)
  isDragging : bool;
  startY : Q;
  startScrollTop : Q;
  scrollPosRef : Q;
  (* Browser objects *)
  recorders : list MediaRecorder;
  objectUrls : list Blob;
  endedTracks : list TrackId;
  grantedStreams : list MediaStream;
  nextTrack : TrackId;
  pendingMedia : list Constraints;
  frameRequests : nat;
  trace : list Effect
}.

(** Field updates. *)

Definition set_stream (v : option MediaStream) (a : App) : App :=
  Build_App v (isRecording a) (facingMode a) (videoUrl a) (recordedChunksRef
    a) (text a) (isEditing a) (isScrolling a) (config a) (showSettings a)
    (videoRef a) (mediaRecorderRef a) (scrollContainerRef a) (requestRef a)
    (streamRef a) (isDragging a) (startY a) (startScrollTop a) (scrollPosRef
    a) (recorders a) (objectUrls a) (endedTracks a) (grantedStreams a)
    (nextTrack a) (pendingMedia a) (frameRequests a) (trace a).

Definition set_isRecording (v : bool) (a : App) : App :=
  Build_App (stream a) v (facingMode a) (videoUrl a) (recordedChunksRef a)
    (text a) (isEditing a) (isScrolling a) (config a) (showSettings a)
    (videoRef a) (mediaRecorderRef a) (scrollContainerRef a) (requestRef a)
    (streamRef a) (isDragging a) (startY a) (startScrollTop a) (scrollPosRef
    a) (recorders a) (objectUrls a) (endedTracks a) (grantedStreams a)
    (nextTrack a) (pendingMedia a) (frameRequests a) (trace a).

Definition set_facingMode (v : FacingMode) (a : App) : App :=
  Build_App (stream a) (isRecording a) v (videoUrl a) (recordedChunksRef a)
    (text a) (isEditing a) (isScrolling a) (config a) (showSettings a)
    (videoRef a) (mediaRecorderRef a) (scrollContainerRef a) (requestRef a)
    (streamRef a) (isDragging a) (startY a) (startScrollTop a) (scrollPosRef
    a) (recorders a) (objectUrls a) (endedTracks a) (grantedStreams a)
    (nextTrack a) (pendingMedia a) (frameRequests a) (trace a).

Definition set_videoUrl (v : option Url) (a : App) : App :=
  Build_App (stream a) (isRecording a) (facingMode a) v (recordedChunksRef a)
    (text a) (isEditing a) (isScrolling a) (config a) (showSettings a)
    (videoRef a) (mediaRecorderRef a) (scrollContainerRef a) (requestRef a)
    (streamRef a) (isDragging a) (startY a) (startScrollTop a) (scrollPosRef
    a) (recorders a) (objectUrls a) (endedTracks a) (grantedStreams a)
    (nextTrack a) (pendingMedia a) (frameRequests a) (trace a).

Definition set_recordedChunksRef (v : list Blob) (a : App) : App :=
  Build_App (stream a) (isRecording a) (facingMode a) (videoUrl a) v (text a)
    (isEditing a) (isScrolling a) (config a) (showSettings a) (videoRef a)
    (mediaRecorderRef a) (scrollContainerRef a) (requestRef a) (streamRef a)
    (isDragging a) (startY a) (startScrollTop a) (scrollPosRef a) (recorders
    a) (objectUrls a) (endedTracks a) (grantedStreams a) (nextTrack a)
    (pendingMedia a) (frameRequests a) (trace a).

Definition set_text (v : string) (a : App) : App :=
  Build_App (stream a) (isRecording a) (facingMode a) (videoUrl a)
    (recordedChunksRef a) v (isEditing a) (isScrolling a) (config a)
    (showSettings a) (videoRef a) (mediaRecorderRef a) (scrollContainerRef a)
    (requestRef a) (streamRef a) (isDragging a) (startY a) (startScrollTop a)
    (scrollPosRef a) (recorders a) (objectUrls a) (endedTracks a)
    (grantedStreams a) (nextTrack a) (pendingMedia a) (frameRequests a) (trace
    a).

Definition set_isEditing (v : bool) (a : App) : App :=
  Build_App (stream a) (isRecording a) (facingMode a) (videoUrl a)
    (recordedChunksRef a) (text a) v (isScrolling a) (config a) (showSettings
    a) (videoRef a) (mediaRecorderRef a) (scrollContainerRef a) (requestRef a)
    (streamRef a) (isDragging a) (startY a) (startScrollTop a) (scrollPosRef
    a) (recorders a) (objectUrls a) (endedTracks a) (grantedStreams a)
    (nextTrack a) (pendingMedia a) (frameRequests a) (trace a).

Definition set_isScrolling (v : bool) (a : App) : App :=
  Build_App (stream a) (isRecording a) (facingMode a) (videoUrl a)
    (recordedChunksRef a) (text a) (isEditing a) v (config a) (showSettings a)
    (videoRef a) (mediaRecorderRef a) (scrollContainerRef a) (requestRef a)
    (streamRef a) (isDragging a) (startY a) (startScrollTop a) (scrollPosRef
    a) (recorders a) (objectUrls a) (endedTracks a) (grantedStreams a)
    (nextTrack a) (pendingMedia a) (frameRequests a) (trace a).

Definition set_config (v : TeleprompterConfig) (a : App) : App :=
  Build_App (stream a) (isRecording a) (facingMode a) (videoUrl a)
    (recordedChunksRef a) (text a) (isEditing a) (isScrolling a) v
    (showSettings a) (videoRef a) (mediaRecorderRef a) (scrollContainerRef a)
    (requestRef a) (streamRef a) (isDragging a) (startY a) (startScrollTop a)
    (scrollPosRef a) (recorders a) (objectUrls a) (endedTracks a)
    (grantedStreams a) (nextTrack a) (pendingMedia a) (frameRequests a) (trace
    a).

Definition set_showSettings (v : bool) (a : App) : App :=
  Build_App (stream a) (isRecording a) (facingMode a) (videoUrl a)
    (recordedChunksRef a) (text a) (isEditing a) (isScrolling a) (config a) v
    (videoRef a) (mediaRecorderRef a) (scrollContainerRef a) (requestRef a)
    (streamRef a) (isDragging a) (startY a) (startScrollTop a) (scrollPosRef
    a) (recorders a) (objectUrls a) (endedTracks a) (grantedStreams a)
    (nextTrack a) (pendingMedia a) (frameRequests a) (trace a).

Definition set_videoRef (v : option VideoElement) (a : App) : App :=
  Build_App (stream a) (isRecording a) (facingMode a) (videoUrl a)
    (recordedChunksRef a) (text a) (isEditing a) (isScrolling a) (config a)
    (showSettings a) v (mediaRecorderRef a) (scrollContainerRef a) (requestRef
    a) (streamRef a) (isDragging a) (startY a) (startScrollTop a)
    (scrollPosRef a) (recorders a) (objectUrls a) (endedTracks a)
    (grantedStreams a) (nextTrack a) (pendingMedia a) (frameRequests a) (trace
    a).

Definition set_mediaRecorderRef (v : option RecorderId) (a : App) : App :=
  Build_App (stream a) (isRecording a) (facingMode a) (videoUrl a)
    (recordedChunksRef a) (text a) (isEditing a) (isScrolling a) (config a)
    (showSettings a) (videoRef a) v (scrollContainerRef a) (requestRef a)
    (streamRef a) (isDragging a) (startY a) (startScrollTop a) (scrollPosRef
    a) (recorders a) (objectUrls a) (endedTracks a) (grantedStreams a)
    (nextTrack a) (pendingMedia a) (frameRequests a) (trace a).

Definition set_scrollContainerRef (v : option Element) (a : App) : App :=
  Build_App (stream a) (isRecording a) (facingMode a) (videoUrl a)
    (recordedChunksRef a) (text a) (isEditing a) (isScrolling a) (config a)
    (showSettings a) (videoRef a) (mediaRecorderRef a) v (requestRef a)
    (streamRef a) (isDragging a) (startY a) (startScrollTop a) (scrollPosRef
    a) (recorders a) (objectUrls a) (endedTracks a) (grantedStreams a)
    (nextTrack a) (pendingMedia a) (frameRequests a) (trace a).

Definition set_requestRef (v : option nat) (a : App) : App :=
  Build_App (stream a) (isRecording a) (facingMode a) (videoUrl a)
    (recordedChunksRef a) (text a) (isEditing a) (isScrolling a) (config a)
    (showSettings a) (videoRef a) (mediaRecorderRef a) (scrollContainerRef a)
    v (streamRef a) (isDragging a) (startY a) (startScrollTop a) (scrollPosRef
    a) (recorders a) (objectUrls a) (endedTracks a) (grantedStreams a)
    (nextTrack a) (pendingMedia a) (frameRequests a) (trace a).

Definition set_streamRef (v : option MediaStream) (a : App) : App :=
  Build_App (stream a) (isRecording a) (facingMode a) (videoUrl a)
    (recordedChunksRef a) (text a) (isEditing a) (isScrolling a) (config a)
    (showSettings a) (videoRef a) (mediaRecorderRef a) (scrollContainerRef a)
    (requestRef a) v (isDragging a) (startY a) (startScrollTop a)
    (scrollPosRef a) (recorders a) (objectUrls a) (endedTracks a)
    (grantedStreams a) (nextTrack a) (pendingMedia a) (frameRequests a) (trace
    a).

Definition set_isDragging (v : bool) (a : App) : App :=
  Build_App (stream a) (isRecording a) (facingMode a) (videoUrl a)
    (recordedChunksRef a) (text a) (isEditing a) (isScrolling a) (config a)
    (showSettings a) (videoRef a) (mediaRecorderRef a) (scrollContainerRef a)
    (requestRef a) (streamRef a) v (startY a) (startScrollTop a) (scrollPosRef
    a) (recorders a) (objectUrls a) (endedTracks a) (grantedStreams a)
    (nextTrack a) (pendingMedia a) (frameRequests a) (trace a).

Definition set_startY (v : Q) (a : App) : App :=
  Build_App (stream a) (isRecording a) (facingMode a) (videoUrl a)
    (recordedChunksRef a) (text a) (isEditing a) (isScrolling a) (config a)
    (showSettings a) (videoRef a) (mediaRecorderRef a) (scrollContainerRef a)
    (requestRef a) (streamRef a) (isDragging a) v (startScrollTop a)
    (scrollPosRef a) (recorders a) (objectUrls a) (endedTracks a)
    (grantedStreams a) (nextTrack a) (pendingMedia a) (frameRequests a) (trace
    a).

Definition set_startScrollTop (v : Q) (a : App) : App :=
  Build_App (stream a) (isRecording a) (facingMode a) (videoUrl a)
    (recordedChunksRef a) (text a) (isEditing a) (isScrolling a) (config a)
    (showSettings a) (videoRef a) (mediaRecorderRef a) (scrollContainerRef a)
    (requestRef a) (streamRef a) (isDragging a) (startY a) v (scrollPosRef a)
    (recorders a) (objectUrls a) (endedTracks a) (grantedStreams a) (nextTrack
    a) (pendingMedia a) (frameRequests a) (trace a).

Definition set_scrollPosRef (v : Q) (a : App) : App :=
  Build_App (stream a) (isRecording a) (facingMode a) (videoUrl a)
    (recordedChunksRef a) (text a) (isEditing a) (isScrolling a) (config a)
    (showSettings a) (videoRef a) (mediaRecorderRef a) (scrollContainerRef a)
    (requestRef a) (streamRef a) (isDragging a) (startY a) (startScrollTop a)
    v (recorders a) (objectUrls a) (endedTracks a) (grantedStreams a)
    (nextTrack a) (pendingMedia a) (frameRequests a) (trace a).

Definition set_recorders (v : list MediaRecorder) (a : App) : App :=
  Build_App (stream a) (isRecording a) (facingMode a) (videoUrl a)
    (recordedChunksRef a) (text a) (isEditing a) (isScrolling a) (config a)
    (showSettings a) (videoRef a) (mediaRecorderRef a) (scrollContainerRef a)
    (requestRef a) (streamRef a) (isDragging a) (startY a) (startScrollTop a)
    (scrollPosRef a) v (objectUrls a) (endedTracks a) (grantedStreams a)
    (nextTrack a) (pendingMedia a) (frameRequests a) (trace a).

Definition set_objectUrls (v : list Blob) (a : App) : App :=
  Build_App (stream a) (isRecording a) (facingMode a) (videoUrl a)
    (recordedChunksRef a) (text a) (isEditing a) (isScrolling a) (config a)
    (showSettings a) (videoRef a) (mediaRecorderRef a) (scrollContainerRef a)
    (requestRef a) (streamRef a) (isDragging a) (startY a) (startScrollTop a)
    (scrollPosRef a) (recorders a) v (endedTracks a) (grantedStreams a)
    (nextTrack a) (pendingMedia a) (frameRequests a) (trace a).

Definition set_endedTracks (v : list TrackId) (a : App) : App :=
  Build_App (stream a) (isRecording a) (facingMode a) (videoUrl a)
    (recordedChunksRef a) (text a) (isEditing a) (isScrolling a) (config a)
    (showSettings a) (videoRef a) (mediaRecorderRef a) (scrollContainerRef a)
    (requestRef a) (streamRef a) (isDragging a) (startY a) (startScrollTop a)
    (scrollPosRef a) (recorders a) (objectUrls a) v (grantedStreams a)
    (nextTrack a) (pendingMedia a) (frameRequests a) (trace a).

Definition set_grantedStreams (v : list MediaStream) (a : App) : App :=
  Build_App (stream a) (isRecording a) (facingMode a) (videoUrl a)
    (recordedChunksRef a) (text a) (isEditing a) (isScrolling a) (config a)
    (showSettings a) (videoRef a) (mediaRecorderRef a) (scrollContainerRef a)
    (requestRef a) (streamRef a) (isDragging a) (startY a) (startScrollTop a)
    (scrollPosRef a) (recorders a) (objectUrls a) (endedTracks a) v (nextTrack
    a) (pendingMedia a) (frameRequests a) (trace a).

Definition set_nextTrack (v : TrackId) (a : App) : App :=
  Build_App (stream a) (isRecording a) (facingMode a) (videoUrl a)
    (recordedChunksRef a) (text a) (isEditing a) (isScrolling a) (config a)
    (showSettings a) (videoRef a) (mediaRecorderRef a) (scrollContainerRef a)
    (requestRef a) (streamRef a) (isDragging a) (startY a) (startScrollTop a)
    (scrollPosRef a) (recorders a) (objectUrls a) (endedTracks a)
    (grantedStreams a) v (pendingMedia a) (frameRequests a) (trace a).

Definition set_pendingMedia (v : list Constraints) (a : App) : App :=
  Build_App (stream a) (isRecording a) (facingMode a) (videoUrl a)
    (recordedChunksRef a) (text a) (isEditing a) (isScrolling a) (config a)
    (showSettings a) (videoRef a) (mediaRecorderRef a) (scrollContainerRef a)
    (requestRef a) (streamRef a) (isDragging a) (startY a) (startScrollTop a)
    (scrollPosRef a) (recorders a) (objectUrls a) (endedTracks a)
    (grantedStreams a) (nextTrack a) v (frameRequests a) (trace a).

Definition set_frameRequests (v : nat) (a : App) : App :=
  Build_App (stream a) (isRecording a) (facingMode a) (videoUrl a)
    (recordedChunksRef a) (text a) (isEditing a) (isScrolling a) (config a)
    (showSettings a) (videoRef a) (mediaRecorderRef a) (scrollContainerRef a)
    (requestRef a) (streamRef a) (isDragging a) (startY a) (startScrollTop a)
    (scrollPosRef a) (recorders a) (objectUrls a) (endedTracks a)
    (grantedStreams a) (nextTrack a) (pendingMedia a) v (trace a).

Definition set_trace (v : list Effect) (a : App) : App :=
  Build_App (stream a) (isRecording a) (facingMode a) (videoUrl a)
    (recordedChunksRef a) (text a) (isEditing a) (isScrolling a) (config a)
    (showSettings a) (videoRef a) (mediaRecorderRef a) (scrollContainerRef a)
    (requestRef a) (streamRef a) (isDragging a) (startY a) (startScrollTop a)
    (scrollPosRef a) (recorders a) (objectUrls a) (endedTracks a)
    (grantedStreams a) (nextTrack a) (pendingMedia a) (frameRequests a) v.

(** The values of [useState] and [useRef] before the first render. *)
Definition initialText : string :=
  "欢迎使用蔡哥保平安提词器！点击右侧编辑按钮修改文字。您可以调节滚动速度、字体大小和颜色。录制完成后，视频将自动生成下载链接。".

Definition initialConfig : TeleprompterConfig :=
  {| fontSize := 32; color := "#ffffff"; speed := 2; opacity := 4 # 10 |}.

Definition initialApp : App := {|
  stream := None; isRecording := false; facingMode := user;
  videoUrl := None; recordedChunksRef := [];
  text := initialText; isEditing := false; isScrolling := false;
  config := initialConfig; showSettings := false;
  videoRef := None; mediaRecorderRef := None; scrollContainerRef := None;
  requestRef := None; streamRef := None;
  isDragging := false; startY := 0; startScrollTop := 0; scrollPosRef := 0;
  recorders := []; objectUrls := []; endedTracks := []; grantedStreams := [];
  nextTrack := 0%nat; pendingMedia := []; frameRequests := 0%nat; trace := []
|}.

(** ** Events *)

Inductive Event :=
| Frame
| MouseDown (pageY : Q)
| MouseMove (pageY : Q)
| MouseUp
| MouseLeave
| TouchStart
| PlayButton
| RewindButton
| RecordButton
| DiscardButton
| CameraButton
| ShareButton (shared copied : bool)
| DataAvailable (r : RecorderId) (data : Blob)
| RecorderStopped (r : RecorderId)
| MediaSettled (i : nat) (granted : bool)
| PlayRejected.

Arguments DataAvailable r%_nat data.
Arguments RecorderStopped r%_nat.
Arguments MediaSettled i%_nat granted.

(** ** Handlers *)

Section Handlers.

Context {P : Platform}.

Definition say (e : Effect) (a : App) : App :=
  set_trace (trace a ++ [e]) a.

(** [el.scrollTop = v] *)
Definition assignScrollTop (el : Element) (v : Q) : Element :=
  {| scrollTop := scrolledTo el v;
     scrollHeight := scrollHeight el;
     clientHeight := clientHeight el;
     offsetTop := offsetTop el |}.

(** [requestRef.current = requestAnimationFrame(animate)]: the handle is the
    number of the request.  The effect that cancels the pending request and
    asks for a new one whenever [animate] is rebuilt changes this handle
    only, and is left out. *)
Definition requestAnimationFrame (a : App) : App :=
  let id := S (frameRequests a) in
  set_requestRef (Some id) (set_frameRequests id a).

(** *** Scrolling Logic *)

Definition baseSpeed : Q := 3 # 10.

Definition animate (a : App) : App :=
  let a' :=
    match scrollContainerRef a with
    | Some el =>
        if isScrolling a && negb (isDragging a) then
          let pos := scrollPosRef a + speed (config a) * baseSpeed in
          let maxScroll := scrollHeight el - clientHeight el in
          if Qle_bool maxScroll pos then
            set_scrollContainerRef (Some (assignScrollTop el maxScroll))
              (set_isScrolling false (set_scrollPosRef maxScroll a))
          else
            set_scrollContainerRef (Some (assignScrollTop el pos))
              (set_scrollPosRef pos a)
        else
          (* Sync ref with manual scroll *)
          set_scrollPosRef (scrollTop el) a
    | None => a
    end in
  requestAnimationFrame a'.

(** *** Mouse Drag Handlers *)

Definition dragSensitivity : Q := 3 # 2.

Definition handleMouseDown (pageY : Q) (a : App) : App :=
  match scrollContainerRef a with
  | None => a
  | Some el =>
      set_isScrolling false
        (set_startScrollTop (scrollTop el)
          (set_startY (pageY - offsetTop el)
            (set_isDragging true a)))
  end.

(** The offset [handleMouseMove] hands to the element. *)
Definition dragTarget (pageY : Q) (el : Element) (a : App) : Q :=
  let y := pageY - offsetTop el in
  let walk := (y - startY a) * dragSensitivity in
  startScrollTop a - walk.

Definition handleMouseMove (pageY : Q) (a : App) : App :=
  if negb (isDragging a) then a
  else match scrollContainerRef a with
       | None => a
       | Some el =>
           set_scrollContainerRef
             (Some (assignScrollTop el (dragTarget pageY el a))) a
       end.

Definition handleMouseUp (a : App) : App :=
  set_isDragging false a.

Definition handleTouchStart (a : App) : App :=
  set_isScrolling false a.

(** The play / stop button: [setIsScrolling(!isScrolling)]. *)
Definition toggleScrolling (a : App) : App :=
  set_isScrolling (negb (isScrolling a)) a.

(** The rewind button. *)
Definition resetScroll (a : App) : App :=
  let a1 := set_scrollPosRef 0 a in
  match scrollContainerRef a1 with
  | Some el => set_scrollContainerRef (Some (assignScrollTop el 0)) a1
  | None => a1
  end.

(** *** Recording Logic *)

Definition mimeTypes : list string :=
  [ "video/mp4;codecs=h264,aac";
    "video/mp4";
    "video/webm;codecs=vp9,opus";
    "video/webm;codecs=vp8,opus";
    "video/webm" ].

(** [x || d] on a possibly undefined string: [undefined] and the empty
    string are the falsy ones. *)
Definition orElse (x : option string) (d : string) : string :=
  match x with
  | Some s => if String.eqb s "" then d else s
  | None => d
  end.

Definition selectMimeType : string :=
  orElse (find isTypeSupported mimeTypes) "video/webm".

Definition setRecorderState (r : RecorderId) (s : RecordingState)
    (t : option nat) (rs : list MediaRecorder) : list MediaRecorder :=
  match nth_error rs r with
  | Some rec =>
      firstn r rs ++
      {| recStream := recStream rec; mimeType := mimeType rec;
         state := s; timeslice := t |} :: skipn (S r) rs
  | None => rs
  end.

(** [recorder.start(ms)] and [recorder.stop()], taken when they return
    normally; the source has no [try] around either. *)
Definition recorderStart (r : RecorderId) (ms : nat) (a : App) : App :=
  set_recorders (setRecorderState r Recording (Some ms) (recorders a)) a.

Definition recorderStop (r : RecorderId) (a : App) : App :=
  match nth_error (recorders a) r with
  | Some rec =>
      set_recorders
        (setRecorderState r Inactive (timeslice rec) (recorders a)) a
  | None => a
  end.

(** [new MediaRecorder(stream, { mimeType })]: the new recorder is the last
    of the browser's recorders. *)
Definition newMediaRecorder (s : MediaStream) (type : string) (a : App)
    : RecorderId * App :=
  (List.length (recorders a),
   set_recorders
     (recorders a ++
      [{| recStream := s; mimeType := type;
          state := Inactive; timeslice := None |}]) a).

Definition startRecording (a : App) : App :=
  match stream a with
  | None => a
  | Some s =>
      let a1 := set_recordedChunksRef [] a in
      let a2 := set_videoUrl None a1 in
      let type := selectMimeType in
      let (recorder, a3) := newMediaRecorder s type a2 in
      let a4 := set_mediaRecorderRef (Some recorder) a3 in
      let a5 := recorderStart recorder 1000 a4 in
      set_isScrolling true (set_isRecording true a5)
  end.

(** [recorder.ondataavailable] of recorder [r], called with [e.data]. *)
Definition ondataavailable (r : RecorderId) (data : Blob) (a : App) : App :=
  match nth_error (recorders a) r with
  | Some _ =>
      if (0 <? size data)%nat
      then set_recordedChunksRef (recordedChunksRef a ++ [data]) a
      else a
  | None => a
  end.

(** [URL.createObjectURL(blob)] *)
Definition createObjectURL (b : Blob) (a : App) : Url * App :=
  (List.length (objectUrls a), set_objectUrls (objectUrls a ++ [b]) a).

(** [recorder.onstop] of recorder [r]; [mimeType] is the constant its
    closure captured when [r] was created. *)
Definition onstop (r : RecorderId) (a : App) : App :=
  match nth_error (recorders a) r with
  | Some rec =>
      let blob := newBlob (recordedChunksRef a) (mimeType rec) in
      let (url, a1) := createObjectURL blob a in
      set_videoUrl (Some url) a1
  | None => a
  end.

Definition stopRecording (a : App) : App :=
  match mediaRecorderRef a with
  | Some r =>
      if isRecording a then
        set_isScrolling false (set_isRecording false (recorderStop r a))
      else a
  | None => a
  end.

(** The record button: [onClick={isRecording ? stopRecording :
    startRecording}]. *)
Definition recordButton (a : App) : App :=
  if isRecording a then stopRecording a else startRecording a.

(** The "record again" button of the result panel: [setVideoUrl(null)]. *)
Definition discardVideo (a : App) : App :=
  set_videoUrl None a.

(** *** Camera *)

(** [s.getTracks().forEach(track => track.stop())].  The recorders are
    left as they are: see the convention on recorder state. *)
Definition stopTracks (s : MediaStream) (a : App) : App :=
  set_endedTracks (getTracks s ++ endedTracks a)
    (set_trace (trace a ++ map TrackStop (getTracks s)) a).

(** [navigator.mediaDevices.getUserMedia(c)] up to the [await]. *)
Definition getUserMedia (c : Constraints) (a : App) : App :=
  set_pendingMedia (pendingMedia a ++ [c]) (say (GetUserMedia c) a).

(** [initCamera] up to its first [await]. *)
Definition initCamera (a : App) : App :=
  (* 1. Stop all existing tracks *)
  let a1 :=
    match streamRef a with
    | Some s => set_streamRef None (stopTracks s a)
    | None => a
    end in
  (* 2. Clear video source *)
  let a2 :=
    match videoRef a1 with
    | Some _ => set_videoRef (Some {| srcObject := None |}) a1
    | None => a1
    end in
  (* 3. Request new stream with flexible constraints *)
  getUserMedia (Flexible (facingMode a2)) a2.

(** The stream a granted request resolves to: a fresh video track and a
    fresh audio track. *)
Definition grantStream (a : App) : MediaStream * App :=
  let s := {| getTracks := [nextTrack a; S (nextTrack a)] |} in
  (s, set_nextTrack (S (S (nextTrack a)))
        (set_grantedStreams (grantedStreams a ++ [s]) a)).

Definition dropNth {A} (i : nat) (l : list A) : list A :=
  firstn i l ++ skipn (S i) l.

(** The rest of [initCamera], run when the [i]-th pending request settles:
    [granted] tells whether the promise resolves or rejects. *)
Definition mediaSettled (i : nat) (granted : bool) (a : App) : App :=
  match nth_error (pendingMedia a) i with
  | None => a
  | Some c =>
      let a0 := set_pendingMedia (dropNth i (pendingMedia a)) a in
      match c, granted with
      | Flexible _, true =>
          let (newStream, a1) := grantStream a0 in
          let a2 := set_stream (Some newStream)
                      (set_streamRef (Some newStream) a1) in
          match videoRef a2 with
          | Some _ =>
              say VideoPlay
                (set_videoRef (Some {| srcObject := Some newStream |}) a2)
          | None => a2
          end
      | Flexible _, false =>
          (* Fallback to basic constraints *)
          getUserMedia Basic (say (ConsoleError "Error accessing camera:") a0)
      | Basic, true =>
          let (basicStream, a1) := grantStream a0 in
          let a2 := set_stream (Some basicStream)
                      (set_streamRef (Some basicStream) a1) in
          match videoRef a2 with
          | Some _ =>
              set_videoRef (Some {| srcObject := Some basicStream |}) a2
          | None => a2
          end
      | Basic, false => say (ConsoleError "Retry failed:") a0
      end
  end.

(** [await videoRef.current.play()] rejecting. *)
Definition playRejected (a : App) : App :=
  say (ConsoleWarn "Auto-play failed:") a.

(** The cleanup of the camera effect. *)
Definition cameraCleanup (a : App) : App :=
  match streamRef a with
  | Some s => stopTracks s a
  | None => a
  end.

Definition flipFacing (fm : FacingMode) : FacingMode :=
  match fm with user => environment | environment => user end.

(** The camera button.  [toggleCamera] sets [facingMode]; [initCamera]
    depends on it, so the effect [useEffect(..., [initCamera])] is torn down
    (its cleanup runs) and run again. *)
Definition toggleCamera (a : App) : App :=
  initCamera (cameraCleanup (set_facingMode (flipFacing (facingMode a)) a)).

(** The first render: both effects run. *)
Definition mount (el : Element) (a : App) : App :=
  let a1 := set_scrollContainerRef (Some el)
              (set_videoRef (Some {| srcObject := None |}) a) in
  requestAnimationFrame (initCamera a1).

(** *** Sharing the application *)

Definition shareConfirmation : string :=
  "应用链接已复制到剪贴板，快去分享给朋友吧！".

(** [shareApp]; [shared] and [copied] tell whether [navigator.share] and
    [navigator.clipboard.writeText] resolve. *)
Definition shareApp (shared copied : bool) (a : App) : App :=
  if hasShare then
    let a1 := say (NavigatorShare locationHref) a in
    if shared then a1 else say (ConsoleError "Share app failed:") a1
  else
    (* Fallback: Copy to clipboard *)
    let a1 := say (ClipboardWriteText locationHref) a in
    if copied then say (Alert shareConfirmation) a1
    else say (ConsoleError "Copy failed:") a1.

Definition step (e : Event) (a : App) : App :=
  match e with
  | Frame => animate a
  | MouseDown y => handleMouseDown y a
  | MouseMove y => handleMouseMove y a
  | MouseUp => handleMouseUp a
  | MouseLeave => handleMouseUp a
  | TouchStart => handleTouchStart a
  | PlayButton => toggleScrolling a
  | RewindButton => resetScroll a
  | RecordButton => recordButton a
  | DiscardButton => discardVideo a
  | CameraButton => toggleCamera a
  | ShareButton shared copied => shareApp shared copied a
  | DataAvailable r data => ondataavailable r data a
  | RecorderStopped r => onstop r a
  | MediaSettled i granted => mediaSettled i granted a
  | PlayRejected => playRejected a
  end.

Definition run (es : list Event) (a : App) : App :=
  fold_left (fun s e => step e s) es a.

End Handlers.

(** * Vocabulary of the properties *)

(** The events that can write the scroll position, and those that can
    reach the camera. *)
Definition touchesScroll (e : Event) : bool :=
  match e with
  | Frame | MouseMove _ | RewindButton => true
  | _ => false
  end.

Definition touchesCamera (e : Event) : bool :=
  match e with
  | CameraButton | MediaSettled _ _ => true
  | _ => false
  end.

Section Vocabulary.

Context {P : Platform}.

(** The part of the trace a handler adds. *)
Definition effectsOf (f : App -> App) (a : App) : list Effect :=
  skipn (List.length (trace a)) (trace (f a)).

(** *** Scrolling *)

(** Both copies of the scroll position, the ref and the rendered offset,
    lie in the scrollable range of the container [el]. *)
Definition withinExtent (el : Element) (a : App) : Prop :=
  exists el',
    scrollContainerRef a = Some el' /\
    scrollHeight el' = scrollHeight el /\
    clientHeight el' = clientHeight el /\
    offsetTop el' = offsetTop el /\
    0 <= scrollTop el' <= maxScrollOf el /\
    0 <= scrollPosRef a <= maxScrollOf el.

(** What may happen between the pointer going down and going up. *)
Definition duringDrag (e : Event) : Prop :=
  match e with
  | MouseMove _ | Frame => True
  | _ => False
  end.

Definition endsDrag (e : Event) : Prop :=
  e = MouseUp \/ e = MouseLeave.

(** *** Recording *)

Definition isActive (r : MediaRecorder) : bool :=
  match state r with Recording => true | Inactive => false end.

Definition activeRecorders (a : App) : list MediaRecorder :=
  filter isActive (recorders a).

(** The recorder the controller holds is the only one that can be
    recording, and it is recording exactly while [isRecording] is set. *)
Definition singleSession (a : App) : Prop :=
  if isRecording a then
    exists r rec,
      mediaRecorderRef a = Some r /\
      nth_error (recorders a) r = Some rec /\
      isActive rec = true /\
      List.length (activeRecorders a) = 1%nat
  else activeRecorders a = [].

(** The controller is in Reviewing when a result is shown. *)
Definition reviewing (a : App) : Prop :=
  isRecording a = false /\ exists url, videoUrl a = Some url.

(** *** Camera *)

Definition isEnded (ended : list TrackId) (t : TrackId) : bool :=
  existsb (Nat.eqb t) ended.

(** [stream.active]: some track of the stream has not ended. *)
Definition isLive (ended : list TrackId) (s : MediaStream) : bool :=
  existsb (fun t => negb (isEnded ended t)) (getTracks s).

Definition liveStreams (a : App) : list MediaStream :=
  filter (isLive (endedTracks a)) (grantedStreams a).

(** Every press of the camera button in [es] finds a stream held. *)
Fixpoint togglesWhileHeld (es : list Event) (a : App) : Prop :=
  match es with
  | [] => True
  | e :: es' =>
      (e = CameraButton -> streamRef a <> None) /\
      togglesWhileHeld es' (step e a)
  end.

(** Tracks are numbered in the order they are created. *)
Definition tracksBelow (n : TrackId) (s : MediaStream) : Prop :=
  forall t, In t (getTracks s) -> (t < n)%nat.

(** The camera at rest: the stream in [streamRef], if any, is the only
    live one and no request is pending; with no stream held, no stream is
    live and at most one request is pending. *)
Definition cameraQuiet (a : App) : Prop :=
  (forall t, In t (endedTracks a) -> (t < nextTrack a)%nat) /\
  (forall s, In s (grantedStreams a) -> tracksBelow (nextTrack a) s) /\
  match streamRef a with
  | Some s => pendingMedia a = [] /\ liveStreams a = [s]
  | None => (List.length (pendingMedia a) <= 1)%nat /\ liveStreams a = []
  end.

(** *** Sharing *)

(** The link reached the clipboard and the user was told. *)
Definition copiedAndConfirmed (es : list Effect) : Prop :=
  In (ClipboardWriteText locationHref) es /\
  In (Alert shareConfirmation) es.

End Vocabulary.

(** ** Concrete states *)

(** A container whose content is 1000 pixels taller than its viewport. *)
Definition tallContainer (top : Q) : Element :=
  {| scrollTop := top; scrollHeight := 1400; clientHeight := 400;
     offsetTop := 0 |}.

Definition frontCamera : MediaStream := {| getTracks := [0%nat; 1%nat] |}.

(** The component after its first render, with the camera granted. *)
Definition ready {P : Platform} : App :=
  run [MediaSettled 0 true] (mount (tallContainer 0) initialApp).

(** Auto-scrolling at speed 10, five pixels before the end. *)
Definition nearEnd {P : Platform} : App :=
  set_scrollContainerRef (Some (tallContainer 995))
    (set_scrollPosRef 995
      (set_isScrolling true
        (set_config {| fontSize := 32; color := "#ffffff";
                       speed := 10; opacity := 4 # 10 |} ready))).

(** A recording in progress, one chunk buffered. *)
Definition midRecording {P : Platform} : App :=
  run [RecordButton;
       DataAvailable 0 {| blobBytes := [Byte.x1a; Byte.x45];
                          blobType := "video/webm" |}] ready.

(** * The rest of the component *)

(** ** Saving the result *)

(** [new File([blob], name, { type })] *)
Record File := {
  fileBytes : list Byte.byte;
  fileName : string;
  fileType : string
}.

(** What [handleDownload] asks of the browser, in order.  [AnchorClick]
    stands for the anchor element that is created, given [href] and
    [download], appended, clicked and removed. *)
Inductive DownloadEffect :=
| Fetch (url : Url)
| CanShare (file : File)
| ShareFiles (file : File) (title : string)
| ShareFailed
| AnchorClick (href : Url) (download : string).

(** A number inside a template literal: [new Date().getTime()] is a
    non-negative integer, printed in decimal. *)
Definition decimal (n : N) : string :=
  NilZero.string_of_uint (N.to_uint n).

Definition shareTitle : string := "提词器录制视频".

Definition sharedName (now : N) : string :=
  String.append "teleprompter_" (String.append (decimal now) ".mp4").

Definition downloadName (now : N) : string :=
  String.append "teleprompter_video_" (String.append (decimal now) ".mp4").

Section Download.

Context {P : Platform}.

(** [handleDownload].  [canShareApi] tells whether [navigator.canShare]
    exists; [fetched], whether [fetch(videoUrl)] and [response.blob()]
    resolve; [accepted], the answer of [navigator.canShare({ files })];
    [shared], whether [navigator.share] resolves; [now1] and [now2] are the
    clock at the two [new Date()].  The handler sets no state. *)
Definition handleDownload (canShareApi fetched accepted shared : bool)
    (now1 now2 : N) (a : App) : list DownloadEffect :=
  match videoUrl a with
  | None => []
  | Some url =>
      (* Fallback to traditional download *)
      let download := [AnchorClick url (downloadName now2)] in
      (* Try Web Share API first *)
      if hasShare && canShareApi then
        Fetch url ::
        match (if fetched then nth_error (objectUrls a) url else None) with
        | Some blob =>
            let file := {| fileBytes := blobBytes blob;
                           fileName := sharedName now1;
                           fileType := "video/mp4" |} in
            CanShare file ::
            (if accepted then
               ShareFiles file shareTitle ::
               (if shared then [] else ShareFailed :: download)
             else download)
        | None => ShareFailed :: download
        end
      else download
  end.

End Download.

(** ** More vocabulary *)

Definition isAnchorClick (e : DownloadEffect) : bool :=
  match e with AnchorClick _ _ => true | _ => false end.

(** The share sheet was offered the file and took it: every step of the
    share path went through. *)
Definition shareCompletes {P : Platform}
    (canShareApi fetched accepted shared : bool) (a : App) : bool :=
  match videoUrl a with
  | Some url =>
      hasShare && canShareApi && fetched &&
      (match nth_error (objectUrls a) url with Some _ => true | None => false
       end) && accepted && shared
  | None => false
  end.


Definition frames (n : nat) : list Event := repeat Frame n.

Definition isMove (e : Event) : Prop :=
  match e with MouseMove _ => True | _ => False end.

Definition isCameraButton (e : Event) : bool :=
  match e with CameraButton => true | _ => false end.

Definition cameraPresses (es : list Event) : nat :=
  List.length (filter isCameraButton es).

Definition nonEmpty (b : Blob) : bool := (0 <? size b)%nat.

(** No empty chunk is buffered. *)
Definition chunksNonEmpty (a : App) : Prop :=
  Forall (fun c => nonEmpty c = true) (recordedChunksRef a).

(** The result handle and the recorder ref point into the browser's
    stores. *)
Definition handlesValid (a : App) : Prop :=
  (forall url, videoUrl a = Some url ->
               (url < List.length (objectUrls a))%nat) /\
  (forall r, mediaRecorderRef a = Some r ->
             (r < List.length (recorders a))%nat).

(** The stream in [streamRef] is the one in the [stream] state and the one
    the video element shows. *)
Definition heldIsShown (a : App) : Prop :=
  forall s, streamRef a = Some s ->
    stream a = Some s /\
    forall v, videoRef a = Some v -> srcObject v = Some s.

(** The events that can write the chunk buffer, and those that can write
    the result handle or the URL store. *)
Definition touchesBuffer (e : Event) : bool :=
  match e with
  | RecordButton | DataAvailable _ _ => true
  | _ => false
  end.

Definition touchesResult (e : Event) : bool :=
  match e with
  | RecordButton | DiscardButton | RecorderStopped _ => true
  | _ => false
  end.

(** A recording of two recorded chunks waiting to be saved. *)
Definition recorded {P : Platform} : App :=
  run [RecordButton;
       DataAvailable 0 {| blobBytes := [Byte.x1a; Byte.x45];
                          blobType := "video/webm" |};
       DataAvailable 0 {| blobBytes := []; blobType := "video/webm" |};
       DataAvailable 0 {| blobBytes := [Byte.xdf]; blobType := "video/webm" |};
       RecordButton; RecorderStopped 0] ready.

(** The camera lost after a recording: the button was pressed and both the
    flexible and the basic request were rejected. *)
Definition cameraLost {P : Platform} : App :=
  run [CameraButton; MediaSettled 0 false; MediaSettled 0 false] recorded.

(** The camera button pressed while the first request was still pending,
    and the first of the two requests granted. *)
Definition pressedEarly {P : Platform} : App :=
  run [CameraButton; MediaSettled 0 true]
    (mount (tallContainer 0) initialApp).

(** ** The animation frame in binary64 *)

(** The scroll container and the cells [animate] reads and writes, with
    JavaScript's numbers as they are: binary64 floats. *)
Record Element64 := {
  scrollTop64 : float;
  scrollHeight64 : float;
  clientHeight64 : float
}.

Record Scroller64 := {
  isScrolling64 : bool;
  speed64 : float;
  container64 : option Element64;
  requestRef64 : option nat;
  isDragging64 : bool;
  scrollPosRef64 : float;
  frameRequests64 : nat
}.

(** [0.3]: the binary64 number nearest to three tenths. *)
Definition baseSpeed64 : float := 0x1.3333333333333p-2%float.

Section Animate64.

(** The offset the element reports after [el.scrollTop = v]. *)
Variable scrolledTo64 : Element64 -> float -> float.

Definition assignScrollTop64 (el : Element64) (v : float) : Element64 :=
  {| scrollTop64 := scrolledTo64 el v;
     scrollHeight64 := scrollHeight64 el;
     clientHeight64 := clientHeight64 el |}.

(** [animate]; [>=] is the comparison of binary64, false on NaN. *)
Definition animate64 (s : Scroller64) : Scroller64 :=
  let id := S (frameRequests64 s) in
  match container64 s with
  | Some el =>
      if isScrolling64 s && negb (isDragging64 s) then
        let pos := (scrollPosRef64 s + speed64 s * baseSpeed64)%float in
        let maxScroll := (scrollHeight64 el - clientHeight64 el)%float in
        if (maxScroll <=? pos)%float then
          {| isScrolling64 := false;
             speed64 := speed64 s;
             container64 := Some (assignScrollTop64 el maxScroll);
             requestRef64 := Some id;
             isDragging64 := isDragging64 s;
             scrollPosRef64 := maxScroll;
             frameRequests64 := id |}
        else
          {| isScrolling64 := isScrolling64 s;
             speed64 := speed64 s;
             container64 := Some (assignScrollTop64 el pos);
             requestRef64 := Some id;
             isDragging64 := isDragging64 s;
             scrollPosRef64 := pos;
             frameRequests64 := id |}
      else
        (* Sync ref with manual scroll *)
        {| isScrolling64 := isScrolling64 s;
           speed64 := speed64 s;
           container64 := Some el;
           requestRef64 := Some id;
           isDragging64 := isDragging64 s;
           scrollPosRef64 := scrollTop64 el;
           frameRequests64 := id |}
  | None =>
      {| isScrolling64 := isScrolling64 s;
         speed64 := speed64 s;
         container64 := None;
         requestRef64 := Some id;
         isDragging64 := isDragging64 s;
         scrollPosRef64 := scrollPosRef64 s;
         frameRequests64 := id |}
  end.

End Animate64.

(** The DOM's clamp of an assigned offset, in binary64. *)
Definition clampTo64 (el : Element64) (v : float) : float :=
  let maxScroll := (scrollHeight64 el - clientHeight64 el)%float in
  if (v <? 0)%float then 0%float
  else if (maxScroll <? v)%float then maxScroll
  else v.

(** Auto-scrolling at speed [speed] from offset [pos] in a container whose
    content is [extent] pixels taller than its 400 pixel viewport. *)
Definition scrolling64 (pos speed extent : float) : Scroller64 :=
  {| isScrolling64 := true;
     speed64 := speed;
     container64 := Some {| scrollTop64 := pos;
                            scrollHeight64 := (extent + 400)%float;
                            clientHeight64 := 400%float |};
     requestRef64 := Some 1%nat;
     isDragging64 := false;
     scrollPosRef64 := pos;
     frameRequests64 := 1%nat |}.

(** * Properties *)

(** ** One frame of the animation loop *)

Section ScrollTick.

Context {P : Platform}.

Lemma animate_auto (a : App) (el : Element) :
  scrollContainerRef a = Some el ->
  isScrolling a = true -> isDragging a = false ->
  let pos := scrollPosRef a + speed (config a) * baseSpeed in
  (Qle_bool (maxScrollOf el) pos = false ->
     scrollPosRef (animate a) = pos /\ isScrolling (animate a) = true /\
     scrollContainerRef (animate a) = Some (assignScrollTop el pos)) /\
  (Qle_bool (maxScrollOf el) pos = true ->
     scrollPosRef (animate a) = maxScrollOf el /\
     isScrolling (animate a) = false /\
     scrollContainerRef (animate a)
       = Some (assignScrollTop el (maxScrollOf el))).
Proof.
  intros Hel Hs Hd pos. subst pos. unfold animate, maxScrollOf.
  rewrite Hel, Hs, Hd. simpl.
  split; intros Hle; rewrite Hle; simpl; auto.
Qed.

Lemma animate_sync (a : App) (el : Element) :
  scrollContainerRef a = Some el ->
  isScrolling a && negb (isDragging a) = false ->
  scrollPosRef (animate a) = scrollTop el /\
  isScrolling (animate a) = isScrolling a /\
  scrollContainerRef (animate a) = Some el.
Proof.
  intros Hel Hc. unfold animate. rewrite Hel, Hc. simpl. auto.
Qed.

Lemma Qle_bool_false (x y : Q) : Qle_bool x y = false <-> y < x.
Proof.
  split; intros H.
  - apply Qnot_le_lt. intros Hle. apply Qle_bool_iff in Hle. congruence.
  - destruct (Qle_bool x y) eqn:E; auto.
    apply Qle_bool_iff in E. exfalso. apply (Qlt_not_le _ _ H E).
Qed.

End ScrollTick.
(** ** Footprints: which part of the state an event can touch *)

Ltac split_handler :=
  repeat (simpl;
          match goal with
          | |- context [match ?x with _ => _ end] => destruct x eqn:?
          end);
  simpl; auto.

Section Footprints.

Context {P : Platform}.

Lemma step_config (e : Event) (a : App) : config (step e a) = config a.
Proof.
  destruct e; unfold step, animate, handleMouseDown, handleMouseMove,
    handleMouseUp, handleTouchStart, toggleScrolling, resetScroll,
    recordButton, startRecording, stopRecording, recorderStop, recorderStart,
    newMediaRecorder, discardVideo, toggleCamera, initCamera, cameraCleanup,
    getUserMedia, stopTracks, shareApp, ondataavailable, onstop,
    createObjectURL, mediaSettled, grantStream, playRejected, say,
    requestAnimationFrame; split_handler.
Qed.

Lemma step_scroll_untouched (e : Event) (a : App) :
  touchesScroll e = false ->
  scrollContainerRef (step e a) = scrollContainerRef a /\
  scrollPosRef (step e a) = scrollPosRef a.
Proof.
  destruct e; simpl; try discriminate; intros _;
  unfold handleMouseDown, handleMouseUp, handleTouchStart, toggleScrolling,
    recordButton, startRecording, stopRecording, recorderStop, recorderStart,
    newMediaRecorder, discardVideo, toggleCamera, initCamera, cameraCleanup,
    getUserMedia, stopTracks, shareApp, ondataavailable, onstop,
    createObjectURL, mediaSettled, grantStream, playRejected, say;
  split_handler.
Qed.

Lemma step_recording_untouched (e : Event) (a : App) :
  e <> RecordButton ->
  isRecording (step e a) = isRecording a /\
  mediaRecorderRef (step e a) = mediaRecorderRef a /\
  recorders (step e a) = recorders a.
Proof.
  destruct e; try congruence; intros _;
  unfold step, animate, handleMouseDown, handleMouseMove,
    handleMouseUp, handleTouchStart, toggleScrolling, resetScroll,
    discardVideo, toggleCamera, initCamera, cameraCleanup,
    getUserMedia, stopTracks, shareApp, ondataavailable, onstop,
    createObjectURL, mediaSettled, grantStream, playRejected, say,
    requestAnimationFrame; split_handler.
Qed.

Lemma step_camera_untouched (e : Event) (a : App) :
  touchesCamera e = false ->
  streamRef (step e a) = streamRef a /\
  pendingMedia (step e a) = pendingMedia a /\
  endedTracks (step e a) = endedTracks a /\
  grantedStreams (step e a) = grantedStreams a /\
  nextTrack (step e a) = nextTrack a.
Proof.
  destruct e; simpl; try discriminate; intros _;
  unfold animate, handleMouseDown, handleMouseMove,
    handleMouseUp, handleTouchStart, toggleScrolling, resetScroll,
    recordButton, startRecording, stopRecording, recorderStop, recorderStart,
    newMediaRecorder, discardVideo, shareApp, ondataavailable, onstop,
    createObjectURL, playRejected, say, requestAnimationFrame;
  split_handler; repeat split; auto.
Qed.

End Footprints.
(** ** The scroll position stays in range *)

Section ScrollRange.

Context {P : Platform}.
Hypothesis clamping : clamps_scrollTop P.

Variable el : Element.
Hypothesis geometry : clientHeight el <= scrollHeight el.

Lemma extent_nonneg : 0 <= maxScrollOf el.
Proof. unfold maxScrollOf. lra. Qed.

Lemma assign_withinExtent (a : App) (el' : Element) (v pos : Q) :
  scrollHeight el' = scrollHeight el ->
  clientHeight el' = clientHeight el ->
  offsetTop el' = offsetTop el ->
  0 <= pos <= maxScrollOf el ->
  withinExtent el
    (set_scrollContainerRef (Some (assignScrollTop el' v))
       (set_scrollPosRef pos a)).
Proof.
  intros Hh Hc Ho Hpos. exists (assignScrollTop el' v). simpl.
  repeat split; auto; try tauto.
  - apply (clamping el' v). rewrite Hh, Hc. exact geometry.
  - assert (E : maxScrollOf el' = maxScrollOf el)
      by (unfold maxScrollOf; rewrite Hh, Hc; reflexivity).
    rewrite <- E. apply (clamping el' v). rewrite Hh, Hc. exact geometry.
Qed.

Lemma animate_withinExtent (a : App) :
  0 <= speed (config a) ->
  withinExtent el a -> withinExtent el (animate a).
Proof.
  intros Hspeed (el' & Hc & Hh & Hcl & Hot & Ht & Hp).
  pose proof extent_nonneg as Hmax.
  unfold animate. rewrite Hc.
  destruct (isScrolling a && negb (isDragging a)).
  - rewrite Hh, Hcl. fold (maxScrollOf el).
    destruct (Qle_bool (maxScrollOf el) _) eqn:Hle.
    + destruct (assign_withinExtent (set_isScrolling false a) el'
                  (maxScrollOf el) (maxScrollOf el))
        as (e2 & H2); auto; [lra|].
      exists e2. exact H2.
    + apply Qle_bool_false in Hle.
      destruct (assign_withinExtent a el'
                  (scrollPosRef a + speed (config a) * baseSpeed)
                  (scrollPosRef a + speed (config a) * baseSpeed))
        as (e2 & H2); auto.
      { unfold baseSpeed in *. split; [|lra].
        assert (0 <= speed (config a) * (3 # 10)) by
          (apply Qmult_le_0_compat; [assumption|lra]).
        lra. }
      exists e2. exact H2.
  - exists el'. simpl. repeat split; auto; tauto.
Qed.

Lemma handleMouseMove_withinExtent (y : Q) (a : App) :
  withinExtent el a -> withinExtent el (handleMouseMove y a).
Proof.
  intros W. unfold handleMouseMove.
  destruct (negb (isDragging a)); [exact W|].
  destruct W as (el' & Hc & Hh & Hcl & Hot & Ht & Hp). rewrite Hc.
  destruct (assign_withinExtent a el' (dragTarget y el' a) (scrollPosRef a))
    as (e2 & H2); auto.
  exists e2. simpl in *. exact H2.
Qed.

Lemma resetScroll_withinExtent (a : App) :
  withinExtent el a -> withinExtent el (resetScroll a).
Proof.
  intros (el' & Hc & Hh & Hcl & Hot & Ht & Hp).
  pose proof extent_nonneg as Hmax.
  unfold resetScroll. simpl. rewrite Hc.
  apply assign_withinExtent; auto. lra.
Qed.

Lemma step_withinExtent (e : Event) (a : App) :
  0 <= speed (config a) ->
  withinExtent el a -> withinExtent el (step e a).
Proof.
  intros Hspeed W.
  destruct (touchesScroll e) eqn:T.
  - destruct e; try discriminate; simpl.
    + apply animate_withinExtent; assumption.
    + apply handleMouseMove_withinExtent; assumption.
    + apply resetScroll_withinExtent; assumption.
  - destruct (step_scroll_untouched e a T) as [Hc Hp].
    destruct W as (el' & W). exists el'. rewrite Hc, Hp. exact W.
Qed.

Lemma run_withinExtent (es : list Event) (a : App) :
  0 <= speed (config a) ->
  withinExtent el a ->
  withinExtent el (run es a) /\ config (run es a) = config a.
Proof.
  revert a. induction es as [|e es IH]; intros a Hspeed W; simpl.
  - split; [exact W|reflexivity].
  - destruct (IH (step e a)) as [W' C'].
    + rewrite step_config. exact Hspeed.
    + apply step_withinExtent; assumption.
    + split; [exact W'|]. rewrite C'. apply step_config.
Qed.

End ScrollRange.
Lemma clampTo_range (el : Element) (v : Q) :
  clientHeight el <= scrollHeight el ->
  0 <= clampTo el v <= maxScrollOf el.
Proof.
  intros G. unfold clampTo.
  assert (0 <= maxScrollOf el) by (unfold maxScrollOf; lra).
  split.
  - apply Q.le_max_l.
  - apply Q.max_lub; [assumption|apply Q.le_min_r].
Qed.

Lemma desktop_clamps : clamps_scrollTop desktop.
Proof. intros el v G. apply clampTo_range, G. Qed.

Lemma clampTo_origin (el : Element) : clampTo el 0 = 0.
Proof.
  unfold clampTo, Qmin, Qmax, GenericMinMax.gmin, GenericMinMax.gmax.
  destruct (0 ?= maxScrollOf el) eqn:E; try reflexivity.
  rewrite E. reflexivity.
Qed.

Lemma desktop_keeps_origin : keeps_origin desktop.
Proof. intros el. simpl. rewrite clampTo_origin. reflexivity. Qed.

Ltac concrete_Q :=
  repeat match goal with
         | |- _ /\ _ => split
         | |- (_ <= _)%Q => vm_compute; discriminate
         | |- (_ < _)%Q => vm_compute; reflexivity
         | |- (_ == _)%Q => vm_compute; reflexivity
         | |- _ = _ => reflexivity
         end.

Lemma ready_withinExtent : withinExtent (tallContainer 0) (@ready desktop).
Proof. exists (tallContainer 0). concrete_Q. Qed.

(** C3.  Over a container of well-formed geometry whose [scrollTop]
    assignment clamps as the DOM prescribes, every sequence of events
    (frames, pointer moves of any size, and all the others) keeps the
    position ref and the rendered offset between [0] and the scroll
    extent, which the events leave as it was. *)
Theorem scroll_position_stays_within_extent {P : Platform}
    (el : Element) (a : App) (es : list Event) :
  clamps_scrollTop P ->
  clientHeight el <= scrollHeight el ->
  0 <= speed (config a) ->
  withinExtent el a ->
  exists el',
    scrollContainerRef (run es a) = Some el' /\
    maxScrollOf el' = maxScrollOf el /\
    0 <= scrollTop el' <= maxScrollOf el /\
    0 <= scrollPosRef (run es a) <= maxScrollOf el.
Proof.
  intros C G S W.
  destruct (run_withinExtent C el G es a S W)
    as ((el' & Hc & Hh & Hcl & Hot & Ht & Hp) & _).
  exists el'. unfold maxScrollOf in *. rewrite Hh, Hcl. auto.
Qed.

Lemma scroll_position_stays_within_extent_witness :
  exists el',
    scrollContainerRef
      (@run desktop [MouseDown 10; MouseMove 5000; Frame; MouseMove (-5000);
                     MouseUp; PlayButton; Frame] (@ready desktop))
      = Some el' /\
    maxScrollOf el' = maxScrollOf (tallContainer 0) /\
    0 <= scrollTop el' <= maxScrollOf (tallContainer 0) /\
    0 <= scrollPosRef
      (@run desktop [MouseDown 10; MouseMove 5000; Frame; MouseMove (-5000);
                     MouseUp; PlayButton; Frame] (@ready desktop))
      <= maxScrollOf (tallContainer 0).
Proof.
  apply (@scroll_position_stays_within_extent desktop (tallContainer 0)).
  - exact desktop_clamps.
  - vm_compute; discriminate.
  - vm_compute; discriminate.
  - exact ready_withinExtent.
Defined.

(** The clamp is the element's: [handleMouseMove] hands it the raw offset
    [startScrollTop - walk], which a large enough displacement takes out of
    the range on either side. *)
Lemma handleMouseMove_writes_raw_offset :
  scrollContainerRef
    (@run rawStore [MouseDown 0; MouseMove 100] (@ready rawStore))
  = Some {| scrollTop := 0 - (100 - 0 - (0 - 0)) * (3 # 2);
            scrollHeight := 1400; clientHeight := 400; offsetTop := 0 |} /\
  dragTarget 100 (tallContainer 0)
    (@run rawStore [MouseDown 0] (@ready rawStore)) < 0 /\
  maxScrollOf (tallContainer 0) <
  dragTarget (-1000) (tallContainer 0)
    (@run rawStore [MouseDown 0] (@ready rawStore)).
Proof. repeat split. Qed.

(** ** One frame in binary64 *)

Section Tick64.

Variable scrolledTo64 : Element64 -> float -> float.

(** C1, as the code has it.  A frame taken while auto-scrolling and not
    dragging sets the position to the binary64 sum of the position and
    [speed * 0.3]; when that sum is at or above [maxScroll] the position
    becomes [maxScroll] and auto-scrolling is switched off, otherwise
    auto-scrolling stays on.  With [maxScroll = 1000], position [995] and
    speed [10] the sum is [998]: the position becomes [998] and
    auto-scrolling stays on; from position [997] the frame ends at [1000]
    with auto-scrolling off. *)
Theorem animate64_advances_and_clamps (s : Scroller64) (el : Element64) :
  container64 s = Some el ->
  isScrolling64 s = true -> isDragging64 s = false ->
  let sum := (scrollPosRef64 s + speed64 s * 0x1.3333333333333p-2)%float in
  let maxScroll := (scrollHeight64 el - clientHeight64 el)%float in
  ((maxScroll <=? sum)%float = false ->
     scrollPosRef64 (animate64 scrolledTo64 s) = sum /\
     isScrolling64 (animate64 scrolledTo64 s) = true) /\
  ((maxScroll <=? sum)%float = true ->
     scrollPosRef64 (animate64 scrolledTo64 s) = maxScroll /\
     isScrolling64 (animate64 scrolledTo64 s) = false) /\
  (maxScroll = 1000%float -> speed64 s = 10%float ->
     (scrollPosRef64 s = 995%float ->
        scrollPosRef64 (animate64 scrolledTo64 s) = 998%float /\
        isScrolling64 (animate64 scrolledTo64 s) = true) /\
     (scrollPosRef64 s = 997%float ->
        scrollPosRef64 (animate64 scrolledTo64 s) = 1000%float /\
        isScrolling64 (animate64 scrolledTo64 s) = false)).
Proof.
  intros Hel Hs Hd sum maxScroll.
  assert (Below : (maxScroll <=? sum)%float = false ->
            scrollPosRef64 (animate64 scrolledTo64 s) = sum /\
            isScrolling64 (animate64 scrolledTo64 s) = true).
  { intros Hle. unfold animate64. rewrite Hel, Hs, Hd. simpl.
    fold maxScroll. change baseSpeed64 with 0x1.3333333333333p-2%float.
    fold sum. rewrite Hle. simpl. auto. }
  assert (Reached : (maxScroll <=? sum)%float = true ->
            scrollPosRef64 (animate64 scrolledTo64 s) = maxScroll /\
            isScrolling64 (animate64 scrolledTo64 s) = false).
  { intros Hle. unfold animate64. rewrite Hel, Hs, Hd. simpl.
    fold maxScroll. change baseSpeed64 with 0x1.3333333333333p-2%float.
    fold sum. rewrite Hle. simpl. auto. }
  split; [exact Below|]. split; [exact Reached|].
  intros Hmax Hspeed. subst sum. rewrite Hmax, Hspeed in *.
  split; intros Hpos; rewrite Hpos in *.
  - apply Below. vm_compute. reflexivity.
  - apply Reached. vm_compute. reflexivity.
Qed.

End Tick64.

Lemma animate64_advances_and_clamps_witness :
  scrollPosRef64 (animate64 clampTo64 (scrolling64 995 10 1000)) = 998%float /\
  isScrolling64 (animate64 clampTo64 (scrolling64 995 10 1000)) = true.
Proof.
  destruct (animate64_advances_and_clamps clampTo64 (scrolling64 995 10 1000)
              {| scrollTop64 := 995; scrollHeight64 := 1000 + 400;
                 clientHeight64 := 400 |})
    as (_ & _ & Scenario); try reflexivity.
  destruct Scenario as [At995 _]; try reflexivity.
  apply At995. reflexivity.
Defined.

(** C1 as the specification has it fails: at extent 1000, position 995,
    speed 10, auto-scrolling on and no drag, one frame does not end at 1000
    with auto-scrolling off. *)
Lemma scenario_995_is_not_clamped64 :
  (scrollHeight64 {| scrollTop64 := 995; scrollHeight64 := 1000 + 400;
                     clientHeight64 := 400 |}
   - clientHeight64 {| scrollTop64 := 995; scrollHeight64 := 1000 + 400;
                       clientHeight64 := 400 |})%float = 1000%float /\
  scrollPosRef64 (scrolling64 995 10 1000) = 995%float /\
  speed64 (scrolling64 995 10 1000) = 10%float /\
  isScrolling64 (scrolling64 995 10 1000) = true /\
  isDragging64 (scrolling64 995 10 1000) = false /\
  ~ (scrollPosRef64 (animate64 clampTo64 (scrolling64 995 10 1000))
       = 1000%float /\
     isScrolling64 (animate64 clampTo64 (scrolling64 995 10 1000)) = false).
Proof.
  repeat split. intros [_ H]. vm_compute in H. discriminate H.
Qed.

(** Rounding decides the clamp: after 29 frames at speed 4 the position is
    [34.799999999999997]; the next sum rounds to [36], so with an extent of
    36 the frame stops there. *)
Lemma rounded_sum_reaches_the_extent :
  scrollPosRef64
    (Nat.iter 29 (animate64 clampTo64) (scrolling64 0 4 36))
    = 0x1.1666666666666p+5%float /\
  scrollPosRef64
    (Nat.iter 30 (animate64 clampTo64) (scrolling64 0 4 36)) = 36%float /\
  isScrolling64
    (Nat.iter 30 (animate64 clampTo64) (scrolling64 0 4 36)) = false.
Proof. repeat split; vm_compute; reflexivity. Qed.

(** ** Dragging *)

Section Drag.

Context {P : Platform}.

Lemma handleMouseDown_pauses (y : Q) (a : App) (el : Element) :
  scrollContainerRef a = Some el ->
  isScrolling (handleMouseDown y a) = false /\
  isDragging (handleMouseDown y a) = true.
Proof. intros H. unfold handleMouseDown. rewrite H. simpl. auto. Qed.

Lemma animate_keeps_paused (a : App) :
  isScrolling a = false -> isScrolling (animate a) = false.
Proof.
  intros H. unfold animate. rewrite H. simpl.
  destruct (scrollContainerRef a); simpl; exact H.
Qed.

Lemma handleMouseMove_isScrolling (y : Q) (a : App) :
  isScrolling (handleMouseMove y a) = isScrolling a.
Proof. unfold handleMouseMove. split_handler. Qed.

Lemma drag_event_keeps_paused (e : Event) (a : App) :
  duringDrag e \/ endsDrag e ->
  isScrolling a = false -> isScrolling (step e a) = false.
Proof.
  intros [D|[E|E]] H.
  - destruct e; try contradiction; simpl.
    + apply animate_keeps_paused, H.
    + rewrite handleMouseMove_isScrolling. exact H.
  - subst e. exact H.
  - subst e. exact H.
Qed.

Lemma drag_events_keep_paused (es : list Event) (a : App) :
  Forall (fun e => duringDrag e \/ endsDrag e) es ->
  isScrolling a = false -> isScrolling (run es a) = false.
Proof.
  revert a. induction es as [|e es IH]; intros a F H; simpl; [exact H|].
  inversion F; subst. apply IH; [assumption|].
  apply drag_event_keeps_paused; assumption.
Qed.

(** Only the play button and the record button switch auto-scrolling on. *)
Lemma only_buttons_resume (e : Event) (a : App) :
  isScrolling a = false -> isScrolling (step e a) = true ->
  e = PlayButton \/ e = RecordButton.
Proof.
  intros H H1. destruct e; auto; exfalso; revert H1; simpl;
  try (rewrite animate_keeps_paused by exact H; discriminate);
  unfold handleMouseDown, handleMouseMove, handleMouseUp, handleTouchStart,
    resetScroll, discardVideo, toggleCamera, initCamera, cameraCleanup,
    getUserMedia, stopTracks, shareApp, ondataavailable, onstop,
    createObjectURL, mediaSettled, grantStream, playRejected, say;
  split_handler; congruence.
Qed.

(** C6.  Take a drag: pointer down on the mounted container, then pointer
    moves with animation frames in between, then pointer up or pointer
    leave.  After every non-empty initial part of it, the last event
    included, auto-scrolling is off; and from a state where it is off,
    nothing but the play button or the record button turns it on. *)
Theorem drag_keeps_auto_scroll_off (a : App) (el : Element) (y : Q)
    (moves : list Event) (final : Event) (done rest : list Event) :
  scrollContainerRef a = Some el ->
  Forall duringDrag moves ->
  endsDrag final ->
  MouseDown y :: moves ++ [final] = done ++ rest ->
  done <> [] ->
  isScrolling (run done a) = false /\
  isScrolling (run (MouseDown y :: moves ++ [final]) a) = false /\
  isDragging (run (MouseDown y :: moves ++ [final]) a) = false /\
  forall e, isScrolling (step e (run (MouseDown y :: moves ++ [final]) a))
            = true ->
            e = PlayButton \/ e = RecordButton.
Proof.
  intros Hel Hmoves Hfinal Hsplit Hdone.
  assert (Hall : Forall (fun e => duringDrag e \/ endsDrag e)
                   (moves ++ [final])).
  { apply Forall_app. split.
    - eapply Forall_impl; [|exact Hmoves]. intros e He. left. exact He.
    - constructor; [right; exact Hfinal|constructor]. }
  destruct (handleMouseDown_pauses y a el Hel) as [Hoff _].
  assert (Hend : isScrolling (run (MouseDown y :: moves ++ [final]) a)
                 = false).
  { simpl. apply drag_events_keep_paused; assumption. }
  split; [|split; [exact Hend|split]].
  - destruct done as [|d done']; [congruence|].
    simpl in Hsplit. injection Hsplit as Hd Hrest. subst d.
    simpl. apply drag_events_keep_paused; [|exact Hoff].
    rewrite Hrest in Hall. apply Forall_app in Hall. tauto.
  - simpl. unfold run. rewrite fold_left_app. simpl.
    destruct Hfinal as [E|E]; subst final; reflexivity.
  - intros e He. eapply only_buttons_resume; eassumption.
Qed.

End Drag.

Lemma drag_keeps_auto_scroll_off_witness :
  isScrolling
    (@run desktop [MouseDown 10; MouseMove 40; Frame]
       (@run desktop [PlayButton] (@ready desktop))) = false.
Proof.
  destruct (@drag_keeps_auto_scroll_off desktop
              (@run desktop [PlayButton] (@ready desktop)) (tallContainer 0)
              10 [MouseMove 40; Frame; MouseMove 90] MouseLeave
              [MouseDown 10; MouseMove 40; Frame] [MouseMove 90; MouseLeave])
    as [H _].
  - reflexivity.
  - repeat constructor.
  - right; reflexivity.
  - reflexivity.
  - discriminate.
  - exact H.
Defined.

(** ** Rewinding *)

Section Rewind.

Context {P : Platform}.

(** C10.  The rewind button sets the position ref to [0] and assigns [0] to
    the container's [scrollTop], which then reads [0]; every other field of
    the state, [isScrolling], [isRecording], the chunks and the result
    handle among them, is as before.  If auto-scrolling was on (and no drag
    in progress), the next frame scrolls on from [0]: it ends at
    [speed * 0.3], or at the extent when that is not below it. *)
Theorem resetScroll_rewinds_and_frames (a : App) (el : Element) :
  keeps_origin P ->
  scrollContainerRef a = Some el ->
  scrollPosRef (resetScroll a) = 0 /\
  scrollContainerRef (resetScroll a) = Some (assignScrollTop el 0) /\
  scrollTop (assignScrollTop el 0) == 0 /\
  isScrolling (resetScroll a) = isScrolling a /\
  isRecording (resetScroll a) = isRecording a /\
  recordedChunksRef (resetScroll a) = recordedChunksRef a /\
  videoUrl (resetScroll a) = videoUrl a /\
  (forall pos c,
     set_scrollPosRef pos (set_scrollContainerRef c (resetScroll a))
     = set_scrollPosRef pos (set_scrollContainerRef c a)) /\
  (isScrolling a = true -> isDragging a = false ->
     (speed (config a) * (3 # 10) < maxScrollOf el ->
        scrollPosRef (animate (resetScroll a)) == speed (config a) * (3 # 10)
        /\ isScrolling (animate (resetScroll a)) = true) /\
     (maxScrollOf el <= speed (config a) * (3 # 10) ->
        scrollPosRef (animate (resetScroll a)) = maxScrollOf el /\
        isScrolling (animate (resetScroll a)) = false)).
Proof.
  intros K Hel.
  assert (Hc : scrollContainerRef (resetScroll a)
               = Some (assignScrollTop el 0)).
  { unfold resetScroll. simpl. rewrite Hel. reflexivity. }
  assert (Hp : scrollPosRef (resetScroll a) = 0).
  { unfold resetScroll. simpl. rewrite Hel. reflexivity. }
  split; [exact Hp|]. split; [exact Hc|]. split; [apply K|].
  repeat (split; [unfold resetScroll; simpl; rewrite Hel; reflexivity|]).
  intros Hs Hd.
  assert (Hs' : isScrolling (resetScroll a) = true)
    by (unfold resetScroll; simpl; rewrite Hel; exact Hs).
  assert (Hd' : isDragging (resetScroll a) = false)
    by (unfold resetScroll; simpl; rewrite Hel; exact Hd).
  assert (Hcfg : config (resetScroll a) = config a)
    by (unfold resetScroll; simpl; rewrite Hel; reflexivity).
  destruct (animate_auto (resetScroll a) (assignScrollTop el 0) Hc Hs' Hd')
    as (Below & Reached).
  rewrite Hp, Hcfg in Below, Reached.
  change (maxScrollOf (assignScrollTop el 0)) with (maxScrollOf el) in *.
  unfold baseSpeed in *.
  split.
  - intros Hlt.
    destruct Below as (B1 & B2 & _); [apply Qle_bool_false; lra|].
    split; [rewrite B1; lra|exact B2].
  - intros Hle.
    destruct Reached as (R1 & R2 & _); [apply Qle_bool_iff; lra|].
    split; assumption.
Qed.

End Rewind.

Lemma resetScroll_rewinds_and_frames_witness :
  scrollPosRef
    (@resetScroll desktop
       (@run desktop [PlayButton; Frame; Frame] (@ready desktop))) = 0 /\
  isScrolling
    (@resetScroll desktop
       (@run desktop [PlayButton; Frame; Frame] (@ready desktop))) = true.
Proof.
  destruct (@resetScroll_rewinds_and_frames desktop
              (@run desktop [PlayButton; Frame; Frame] (@ready desktop))
              {| scrollTop := 0 + 2 * (3 # 10) + 2 * (3 # 10);
                 scrollHeight := 1400; clientHeight := 400;
                 offsetTop := 0 |})
    as (H0 & _ & _ & Hs & _).
  - exact desktop_keeps_origin.
  - vm_compute. reflexivity.
  - split; [exact H0|]. rewrite Hs. reflexivity.
Defined.

(** ** Codec selection *)




Section Codec.

Context {P : Platform}.



Lemma setRecorderState_last (l : list MediaRecorder) (x : MediaRecorder)
    (s : RecordingState) (t : option nat) :
  setRecorderState (List.length l) s t (l ++ [x])
  = l ++ [{| recStream := recStream x; mimeType := mimeType x;
             state := s; timeslice := t |}].
Proof.
  unfold setRecorderState.
  assert (Hn : nth_error (l ++ [x]) (List.length l) = Some x)
    by (rewrite nth_error_app2, Nat.sub_diag by lia; reflexivity).
  assert (Hf : firstn (List.length l) (l ++ [x]) = l)
    by (rewrite firstn_app, Nat.sub_diag, firstn_all; simpl;
        apply app_nil_r).
  assert (Hk : skipn (S (List.length l)) (l ++ [x]) = [])
    by (apply skipn_all2; rewrite length_app; simpl; lia).
  rewrite Hn, Hf, Hk. reflexivity.
Qed.

(** What [startRecording] does once a stream is there. *)
Lemma startRecording_with_stream (a : App) (s : MediaStream) :
  stream a = Some s ->
  startRecording a =
  set_isScrolling true
    (set_isRecording true
      (set_recorders
        (recorders a ++
         [{| recStream := s; mimeType := selectMimeType;
             state := Recording; timeslice := Some 1000%nat |}])
        (set_mediaRecorderRef (Some (List.length (recorders a)))
          (set_videoUrl None (set_recordedChunksRef [] a))))).
Proof.
  intros Hs. unfold startRecording, newMediaRecorder, recorderStart.
  rewrite Hs. simpl. rewrite setRecorderState_last. reflexivity.
Qed.


End Codec.


(** ** Starting and stopping a recording *)

Lemma nth_error_decompose {A} (l : list A) (i : nat) (x : A) :
  nth_error l i = Some x -> l = firstn i l ++ x :: skipn (S i) l.
Proof.
  revert i. induction l as [|h l IH]; intros [|i] H; simpl in *;
    try discriminate.
  - injection H as ->. reflexivity.
  - f_equal. apply IH. exact H.
Qed.

Lemma filter_length_one_split {A} (f : A -> bool) (l1 l2 : list A) (x : A) :
  f x = true ->
  List.length (filter f (l1 ++ x :: l2)) = 1%nat ->
  filter f l1 = [] /\ filter f l2 = [].
Proof.
  intros Hx. rewrite filter_app. simpl. rewrite Hx.
  rewrite length_app. simpl. intros H.
  split; apply length_zero_iff_nil; lia.
Qed.

Lemma stop_the_only_active (l : list MediaRecorder) (r : RecorderId)
    (rec : MediaRecorder) (t : option nat) :
  nth_error l r = Some rec ->
  isActive rec = true ->
  List.length (filter isActive l) = 1%nat ->
  filter isActive (setRecorderState r Inactive t l) = [].
Proof.
  intros Hn Ha Hone. unfold setRecorderState. rewrite Hn.
  rewrite (nth_error_decompose l r rec Hn) in Hone.
  destruct (filter_length_one_split _ _ _ _ Ha Hone) as [H1 H2].
  rewrite filter_app, H1. cbn [filter isActive state app].
  exact H2.
Qed.

Lemma setRecorderState_length (r : RecorderId) (s : RecordingState)
    (t : option nat) (l : list MediaRecorder) :
  List.length (setRecorderState r s t l) = List.length l.
Proof.
  unfold setRecorderState. destruct (nth_error l r) as [rec|] eqn:E;
    [|reflexivity].
  assert (r < List.length l)%nat by (apply nth_error_Some; congruence).
  rewrite length_app. cbn [List.length].
  rewrite length_firstn, length_skipn. lia.
Qed.

Section Recording.

Context {P : Platform}.

(** The guard of [startRecording].  While the [stream] cell is null,
    [startRecording] returns the state it was given: no field changes, so
    no recorder is created, [isRecording] and [isScrolling] keep their
    values, the chunks and the result handle stay; pressing the record
    button while idle is this call. *)
Theorem startRecording_without_stream_is_noop (a : App) :
  stream a = None ->
  startRecording a = a /\
  recorders (startRecording a) = recorders a /\
  isRecording (startRecording a) = isRecording a /\
  isScrolling (startRecording a) = isScrolling a /\
  recordedChunksRef (startRecording a) = recordedChunksRef a /\
  videoUrl (startRecording a) = videoUrl a /\
  (isRecording a = false -> step RecordButton a = a).
Proof.
  intros Hs.
  assert (E : startRecording a = a)
    by (unfold startRecording; rewrite Hs; reflexivity).
  rewrite E. repeat split.
  intros Hr. simpl. unfold recordButton. rewrite Hr. exact E.
Qed.




Lemma recordButton_singleSession (a : App) :
  singleSession a -> singleSession (recordButton a).
Proof.
  unfold singleSession, recordButton. intros S.
  destruct (isRecording a) eqn:R.
  - destruct S as (r & rec & Href & Hn & Ha & Hone).
    unfold stopRecording, recorderStop. rewrite Href, R, Hn. simpl.
    unfold activeRecorders. simpl.
    apply (stop_the_only_active _ r rec); assumption.
  - destruct (stream a) as [s|] eqn:Hs.
    + rewrite (startRecording_with_stream a s Hs). simpl.
      exists (List.length (recorders a)).
      eexists. split; [reflexivity|].
      split; [rewrite nth_error_app2, Nat.sub_diag by lia; reflexivity|].
      split; [reflexivity|].
      unfold activeRecorders in *. simpl. rewrite filter_app, S.
      reflexivity.
    + unfold startRecording. rewrite Hs, R. exact S.
Qed.

Lemma step_singleSession (e : Event) (a : App) :
  singleSession a -> singleSession (step e a).
Proof.
  intros S.
  assert (D : e = RecordButton \/ e <> RecordButton)
    by (destruct e; (left; reflexivity) || (right; discriminate)).
  destruct D as [->|Hne].
  - apply recordButton_singleSession, S.
  - destruct (step_recording_untouched e a Hne) as (H1 & H2 & H3).
    unfold singleSession, activeRecorders in *.
    rewrite H1, H2, H3. exact S.
Qed.

Lemma run_singleSession (es : list Event) (a : App) :
  singleSession a -> singleSession (run es a).
Proof.
  revert a. induction es as [|e es IH]; intros a S; simpl; [exact S|].
  apply IH, step_singleSession, S.
Qed.

Lemma singleSession_at_most_one (a : App) :
  singleSession a -> (List.length (activeRecorders a) <= 1)%nat.
Proof.
  unfold singleSession. destruct (isRecording a).
  - intros (_ & _ & _ & _ & _ & H). lia.
  - intros ->. simpl. lia.
Qed.

(** C2, as the code has it.  [startRecording] does not look at
    [isRecording]; the check is in the record button, which calls
    [stopRecording] while recording and [startRecording] otherwise.  So
    along any sequence of events at most one recorder is recording, and a
    press of the button while recording stops it and starts none. *)
Theorem record_button_keeps_single_session (a : App) (es : list Event) :
  singleSession a ->
  (List.length (activeRecorders (run es a)) <= 1)%nat /\
  (isRecording (run es a) = true ->
     step RecordButton (run es a) = stopRecording (run es a) /\
     activeRecorders (step RecordButton (run es a)) = [] /\
     List.length (recorders (step RecordButton (run es a)))
       = List.length (recorders (run es a))) /\
  (isRecording (run es a) = false ->
     step RecordButton (run es a) = startRecording (run es a)).
Proof.
  intros S. pose proof (run_singleSession es a S) as S'.
  split; [apply singleSession_at_most_one, S'|]. split.
  - intros R. simpl. unfold recordButton. rewrite R.
    split; [reflexivity|].
    pose proof (recordButton_singleSession _ S') as S2.
    unfold recordButton in S2. rewrite R in S2.
    unfold singleSession in S, S', S2. rewrite R in S'.
    destruct S' as (r & rec & Href & Hn & Ha & Hone).
    assert (Roff : isRecording (stopRecording (run es a)) = false).
    { unfold stopRecording. rewrite Href, R. reflexivity. }
    rewrite Roff in S2. split; [exact S2|].
    unfold stopRecording, recorderStop.
    rewrite Href, R, Hn. simpl. apply setRecorderState_length.
  - intros R. simpl. unfold recordButton. rewrite R. reflexivity.
Qed.

End Recording.

Lemma startRecording_without_stream_is_noop_witness :
  @startRecording desktop initialApp = initialApp.
Proof.
  destruct (@startRecording_without_stream_is_noop desktop initialApp)
    as [H _]; [reflexivity|exact H].
Defined.


Lemma record_button_keeps_single_session_witness :
  (List.length
     (activeRecorders
        (@run desktop [RecordButton; Frame; RecordButton; RecordButton]
           (@ready desktop))) <= 1)%nat.
Proof.
  destruct (@record_button_keeps_single_session desktop (@ready desktop)
              [RecordButton; Frame; RecordButton; RecordButton])
    as [H _]; [reflexivity|exact H].
Defined.

(** C2 as the specification has it fails: called while a recording is in
    progress, [startRecording] is not a no-op.  It empties the chunks and
    creates and starts a second recorder while the first one still
    records. *)
Lemma startRecording_while_recording_is_not_noop :
  stream (@midRecording desktop) = Some frontCamera /\
  isRecording (@midRecording desktop) = true /\
  List.length (activeRecorders (@midRecording desktop)) = 1%nat /\
  ~ (recorders (@startRecording desktop (@midRecording desktop))
       = recorders (@midRecording desktop) /\
     recordedChunksRef (@startRecording desktop (@midRecording desktop))
       = recordedChunksRef (@midRecording desktop) /\
     videoUrl (@startRecording desktop (@midRecording desktop))
       = videoUrl (@midRecording desktop)) /\
  List.length (recordedChunksRef (@midRecording desktop)) = 1%nat /\
  recordedChunksRef (@startRecording desktop (@midRecording desktop)) = [] /\
  List.length
    (activeRecorders (@startRecording desktop (@midRecording desktop)))
  = 2%nat.
Proof.
  repeat split. intros (H & _). vm_compute in H. discriminate H.
Qed.

(** ** Sharing the application *)

Lemma skipn_past {A} (l r : list A) : skipn (List.length l) (l ++ r) = r.
Proof. induction l as [|h l IH]; simpl; auto. Qed.

Lemma set_trace_same (a : App) (t : list Effect) :
  set_trace (trace a) (set_trace t a) = a.
Proof. destruct a; reflexivity. Qed.

Section Share.

Context {P : Platform}.

Lemma shareApp_trace (shared copied : bool) (a : App) :
  trace (shareApp shared copied a) =
  trace a ++
  (if hasShare then
     NavigatorShare locationHref ::
     (if shared then [] else [ConsoleError "Share app failed:"])
   else
     ClipboardWriteText locationHref ::
     (if copied then [Alert shareConfirmation]
      else [ConsoleError "Copy failed:"])).
Proof.
  unfold shareApp, say.
  destruct hasShare; [destruct shared|destruct copied]; simpl;
    rewrite <- ?app_assoc; reflexivity.
Qed.

Lemma shareApp_state (shared copied : bool) (a : App) :
  set_trace (trace a) (shareApp shared copied a) = a.
Proof.
  unfold shareApp, say.
  destruct hasShare; [destruct shared|destruct copied];
    destruct a; reflexivity.
Qed.

(** C9, as the code has it.  [shareApp] changes nothing but the trace.
    Without [navigator.share] it writes the link to the clipboard and, when
    the write succeeds, shows the alert (when it fails it logs the error and
    shows nothing).  With [navigator.share] it calls it, and when the call
    fails it logs the error: the clipboard is not written, no alert is
    shown. *)
Theorem shareApp_copies_only_without_share (shared copied : bool) (a : App) :
  set_trace (trace a) (shareApp shared copied a) = a /\
  (hasShare = false ->
     effectsOf (shareApp shared copied) a =
       ClipboardWriteText locationHref ::
       (if copied then [Alert shareConfirmation]
        else [ConsoleError "Copy failed:"]) /\
     (copied = true ->
        copiedAndConfirmed (effectsOf (shareApp shared copied) a))) /\
  (hasShare = true ->
     effectsOf (shareApp shared copied) a =
       NavigatorShare locationHref ::
       (if shared then [] else [ConsoleError "Share app failed:"]) /\
     (forall link, ~ In (ClipboardWriteText link)
                        (effectsOf (shareApp shared copied) a)) /\
     (forall msg, ~ In (Alert msg) (effectsOf (shareApp shared copied) a))).
Proof.
  split; [apply shareApp_state|].
  unfold effectsOf. rewrite shareApp_trace, skipn_past.
  split; intros H; rewrite H.
  - split; [reflexivity|]. intros ->. unfold copiedAndConfirmed. simpl. auto.
  - split; [reflexivity|].
    split; intros x; destruct shared; simpl; intuition discriminate.
Qed.

End Share.

Lemma shareApp_copies_only_without_share_witness :
  effectsOf (@shareApp desktop false true) initialApp =
  [ClipboardWriteText "https://teleprompter.example/";
   Alert shareConfirmation].
Proof.
  destruct (@shareApp_copies_only_without_share desktop false true
              initialApp) as (_ & Hcopy & _).
  destruct Hcopy as [H _]; [reflexivity|exact H].
Defined.

(** C9 as the specification has it fails: where [navigator.share] exists
    and the share call fails, the link is not copied and nothing is shown,
    whether or not the clipboard would have worked. *)
Lemma failed_share_is_only_logged :
  @hasShare mobile = true /\
  effectsOf (@shareApp mobile false true) initialApp =
  [NavigatorShare "https://teleprompter.example/";
   ConsoleError "Share app failed:"] /\
  ~ @copiedAndConfirmed mobile
      (effectsOf (@shareApp mobile false true) initialApp).
Proof.
  repeat split. intros [H _]. vm_compute in H. intuition discriminate.
Qed.

(** ** Switching the camera *)

Lemma filter_nothing {A} (f : A -> bool) (l : list A) :
  (forall x, In x l -> f x = false) -> filter f l = [].
Proof.
  induction l as [|h l IH]; intros H; simpl; [reflexivity|].
  rewrite (H h) by (left; reflexivity).
  apply IH. intros x Hx. apply H. right. exact Hx.
Qed.

Lemma isEnded_app (extra ended : list TrackId) (t : TrackId) :
  isEnded (extra ++ ended) t = isEnded extra t || isEnded ended t.
Proof. unfold isEnded. apply existsb_app. Qed.

Lemma isEnded_In (ended : list TrackId) (t : TrackId) :
  isEnded ended t = true <-> In t ended.
Proof.
  unfold isEnded. rewrite existsb_exists. split.
  - intros (x & Hx & E). apply Nat.eqb_eq in E. subst x. exact Hx.
  - intros H. exists t. split; [exact H|apply Nat.eqb_refl].
Qed.

Lemma isLive_spec (ended : list TrackId) (s : MediaStream) :
  isLive ended s = true <->
  exists t, In t (getTracks s) /\ ~ In t ended.
Proof.
  unfold isLive. rewrite existsb_exists.
  split; intros (t & Ht & H); exists t; (split; [exact Ht|]).
  - intros Hin. apply isEnded_In in Hin. rewrite Hin in H. discriminate H.
  - destruct (isEnded ended t) eqn:E; [|reflexivity].
    apply isEnded_In in E. contradiction.
Qed.

Lemma not_live (ended : list TrackId) (s : MediaStream) :
  (isLive ended s = true -> False) -> isLive ended s = false.
Proof. destruct (isLive ended s); intuition congruence. Qed.

Lemma isLive_fewer_ended (extra ended : list TrackId) (s : MediaStream) :
  isLive ended s = false -> isLive (extra ++ ended) s = false.
Proof.
  intros H. apply not_live. intros L.
  apply isLive_spec in L. destruct L as (t & Ht & Hn).
  assert (L : isLive ended s = true).
  { apply isLive_spec. exists t. split; [exact Ht|].
    intros Hin. apply Hn, in_or_app. right. exact Hin. }
  congruence.
Qed.

Lemma isLive_stopped (ended : list TrackId) (s : MediaStream) :
  isLive (getTracks s ++ ended) s = false.
Proof.
  apply not_live. intros L.
  apply isLive_spec in L. destruct L as (t & Ht & Hn).
  apply Hn, in_or_app. left. exact Ht.
Qed.

Lemma isLive_fresh (ended : list TrackId) (n : TrackId) :
  (forall t, In t ended -> (t < n)%nat) ->
  isLive ended {| getTracks := [n; S n] |} = true.
Proof.
  intros Hbelow. unfold isLive. simpl.
  destruct (isEnded ended n) eqn:E; [|reflexivity].
  apply isEnded_In, Hbelow in E. lia.
Qed.

(** Stopping the tracks of the one live stream leaves no live stream. *)
Lemma stop_the_only_live (ended : list TrackId) (granted : list MediaStream)
    (s : MediaStream) (extra : list TrackId) :
  filter (isLive ended) granted = [s] ->
  filter (isLive (extra ++ getTracks s ++ ended)) granted = [].
Proof.
  intros Hone. apply filter_nothing. intros x Hx.
  apply isLive_fewer_ended.
  destruct (isLive ended x) eqn:E.
  - assert (Hin : In x (filter (isLive ended) granted))
      by (apply filter_In; auto).
    rewrite Hone in Hin. destruct Hin as [<-|[]]. apply isLive_stopped.
  - apply isLive_fewer_ended. exact E.
Qed.

Section Camera.

Context {P : Platform}.

(** What the camera button does while a stream is held. *)
Lemma toggleCamera_held (a : App) (s : MediaStream) :
  streamRef a = Some s ->
  trace (toggleCamera a) =
    trace a ++ map TrackStop (getTracks s ++ getTracks s) ++
    [GetUserMedia (Flexible (flipFacing (facingMode a)))] /\
  endedTracks (toggleCamera a) = getTracks s ++ getTracks s ++ endedTracks a /\
  streamRef (toggleCamera a) = None /\
  pendingMedia (toggleCamera a) =
    pendingMedia a ++ [Flexible (flipFacing (facingMode a))] /\
  grantedStreams (toggleCamera a) = grantedStreams a /\
  nextTrack (toggleCamera a) = nextTrack a.
Proof.
  intros Hs. unfold toggleCamera, initCamera, cameraCleanup, getUserMedia,
    stopTracks, say. simpl. repeat (rewrite Hs; simpl).
  destruct (videoRef a); simpl; rewrite map_app, <- !app_assoc;
    repeat split; reflexivity.
Qed.

Lemma toggleCamera_quiet (a : App) :
  streamRef a <> None -> cameraQuiet a -> cameraQuiet (toggleCamera a).
Proof.
  intros Hheld (Hended & Hgranted & Hshape).
  destruct (streamRef a) as [s|] eqn:Hs; [|congruence].
  destruct Hshape as [Hpending Hlive].
  destruct (toggleCamera_held a s Hs) as (_ & He & Hr & Hp & Hg & Hn).
  unfold cameraQuiet, liveStreams. rewrite He, Hr, Hp, Hg, Hn, Hpending.
  assert (Hin : In s (grantedStreams a)).
  { assert (H : In s (liveStreams a)) by (rewrite Hlive; left; reflexivity).
    apply filter_In in H. tauto. }
  split; [|split; [exact Hgranted|split]].
  - intros t Ht. apply in_app_or in Ht. destruct Ht as [Ht|Ht].
    + apply (Hgranted s Hin t Ht).
    + apply in_app_or in Ht. destruct Ht as [Ht|Ht]; [|auto].
      apply (Hgranted s Hin t Ht).
  - simpl. lia.
  - apply stop_the_only_live. exact Hlive.
Qed.

Lemma grant_quiet (a : App) (s : MediaStream) (b : App) :
  grantStream a = (s, b) ->
  (forall t, In t (endedTracks a) -> (t < nextTrack a)%nat) ->
  (forall x, In x (grantedStreams a) -> tracksBelow (nextTrack a) x) ->
  liveStreams a = [] ->
  (forall t, In t (endedTracks b) -> (t < nextTrack b)%nat) /\
  (forall x, In x (grantedStreams b) -> tracksBelow (nextTrack b) x) /\
  liveStreams b = [s] /\
  streamRef b = streamRef a /\ pendingMedia b = pendingMedia a.
Proof.
  unfold grantStream. intros E Hended Hgranted Hlive.
  injection E as <- <-. unfold liveStreams in *. simpl.
  split; [|split; [|split; [|split; reflexivity]]].
  - intros t Ht. specialize (Hended t Ht). lia.
  - intros x Hx t Ht. apply in_app_or in Hx. destruct Hx as [Hx|[<-|[]]].
    + specialize (Hgranted x Hx t Ht). lia.
    + simpl in Ht. destruct Ht as [<-|[<-|[]]]; lia.
  - rewrite filter_app, Hlive. simpl.
    rewrite (isLive_fresh _ _ Hended). reflexivity.
Qed.

Lemma mediaSettled_quiet (i : nat) (granted : bool) (a : App) :
  cameraQuiet a -> cameraQuiet (mediaSettled i granted a).
Proof.
  intros Q. pose proof Q as (Hended & Hgranted & Hshape).
  unfold mediaSettled.
  destruct (nth_error (pendingMedia a) i) as [c|] eqn:Hn; [|exact Q].
  destruct (streamRef a) as [s|] eqn:Hs.
  { destruct Hshape as [Hp _]. rewrite Hp in Hn.
    destruct i; discriminate Hn. }
  destruct Hshape as [Hlen Hlive].
  assert (Hdrop : dropNth i (pendingMedia a) = []).
  { destruct (pendingMedia a) as [|c0 [|c1 l]]; simpl in Hlen;
      [destruct i; discriminate Hn| |lia].
    destruct i as [|i]; [reflexivity|]. destruct i; discriminate Hn. }
  rewrite Hdrop.
  set (a0 := set_pendingMedia [] a).
  assert (Q0 : (forall t, In t (endedTracks a0) -> (t < nextTrack a0)%nat) /\
               (forall x, In x (grantedStreams a0) ->
                          tracksBelow (nextTrack a0) x) /\
               liveStreams a0 = [] /\ streamRef a0 = None /\
               pendingMedia a0 = []).
  { subst a0. unfold liveStreams in *. simpl. rewrite Hs. auto. }
  destruct Q0 as (E0 & G0 & L0 & S0 & P0).
  destruct (grantStream a0) as [s1 a1] eqn:Hgrant.
  destruct (grant_quiet a0 s1 a1 Hgrant E0 G0 L0) as (E1 & G1 & L1 & S1 & P1).
  destruct c as [fm|], granted.
  - destruct (videoRef _) eqn:V; unfold cameraQuiet, liveStreams in *;
      simpl; rewrite P1, P0; auto.
  - unfold getUserMedia, say, cameraQuiet, liveStreams in *. simpl.
    rewrite Hs. simpl. auto.
  - destruct (videoRef _) eqn:V; unfold cameraQuiet, liveStreams in *;
      simpl; rewrite P1, P0; auto.
  - unfold say, cameraQuiet, liveStreams in *. simpl. rewrite Hs. auto.
Qed.

Lemma step_quiet (e : Event) (a : App) :
  (e = CameraButton -> streamRef a <> None) ->
  cameraQuiet a -> cameraQuiet (step e a).
Proof.
  intros Hheld Q. destruct (touchesCamera e) eqn:T.
  - destruct e; try discriminate; simpl.
    + apply toggleCamera_quiet; auto.
    + apply mediaSettled_quiet, Q.
  - destruct (step_camera_untouched e a T) as (H1 & H2 & H3 & H4 & H5).
    unfold cameraQuiet, liveStreams in *.
    rewrite H1, H2, H3, H4, H5. exact Q.
Qed.

Lemma run_quiet (es : list Event) (a : App) :
  togglesWhileHeld es a -> cameraQuiet a -> cameraQuiet (run es a).
Proof.
  revert a. induction es as [|e es IH]; intros a T Q; simpl; [exact Q|].
  destruct T as [Hheld T]. apply IH; [exact T|].
  apply step_quiet; assumption.
Qed.

Lemma quiet_at_most_one (a : App) :
  cameraQuiet a -> (List.length (liveStreams a) <= 1)%nat.
Proof.
  intros (_ & _ & H). destruct (streamRef a); destruct H as [_ ->];
    simpl; lia.
Qed.

(** Where the camera button is pressed only while a stream is held.  Start
    from a state in which the stream in [streamRef] is the only live one
    (as right after mounting), and let every press find a stream held.
    Then at every moment at most one stream is live.  And a press while
    stream [s] is held calls [stop] on every track of [s], and only on
    those, before it calls [getUserMedia]: when the request goes out [s]
    has ended, no stream is live and none is held. *)
Theorem toggle_releases_before_acquiring (a : App) (es : list Event) :
  cameraQuiet a ->
  togglesWhileHeld es a ->
  (List.length (liveStreams (run es a)) <= 1)%nat /\
  forall s,
    streamRef (run es a) = Some s ->
    let b := step CameraButton (run es a) in
    trace b =
      trace (run es a) ++ map TrackStop (getTracks s ++ getTracks s) ++
      [GetUserMedia (Flexible (flipFacing (facingMode (run es a))))] /\
    (forall t, In t (getTracks s) -> isEnded (endedTracks b) t = true) /\
    isLive (endedTracks b) s = false /\
    liveStreams b = [] /\
    streamRef b = None.
Proof.
  intros Q T. pose proof (run_quiet es a T Q) as Q'.
  split; [apply quiet_at_most_one, Q'|].
  intros s Hs b. subst b.
  change (step CameraButton (run es a)) with (toggleCamera (run es a)).
  destruct (toggleCamera_held (run es a) s Hs) as (Ht & He & Hr & _).
  assert (Q2 : cameraQuiet (toggleCamera (run es a)))
    by (apply toggleCamera_quiet; [congruence|exact Q']).
  split; [exact Ht|]. rewrite He.
  split; [|split; [apply isLive_stopped|split; [|exact Hr]]].
  - intros t Hin. apply isEnded_In, in_or_app. left. exact Hin.
  - destruct Q2 as (_ & _ & Q2). rewrite Hr in Q2. tauto.
Qed.

End Camera.

Lemma mounted_quiet (el : Element) : cameraQuiet (mount el initialApp).
Proof.
  unfold cameraQuiet. simpl.
  repeat split; try (intros ? []); auto.
Qed.

Lemma toggle_releases_before_acquiring_witness :
  (List.length
     (liveStreams
        (@run desktop
           [MediaSettled 0 true; CameraButton; MediaSettled 0 false;
            MediaSettled 0 true; Frame; CameraButton]
           (mount (tallContainer 0) initialApp))) <= 1)%nat.
Proof.
  destruct (@toggle_releases_before_acquiring desktop
              (mount (tallContainer 0) initialApp)
              [MediaSettled 0 true; CameraButton; MediaSettled 0 false;
               MediaSettled 0 true; Frame; CameraButton])
    as [H _].
  - apply mounted_quiet.
  - repeat split; try discriminate; intros _; vm_compute; discriminate.
  - exact H.
Defined.

(** Outside the premise of C7: a press of the camera button while the
    first request is still pending finds nothing to stop, and both requests
    are then granted a stream; the first one stays live and is held by
    nobody. *)
Lemma press_before_grant_leaves_two_live :
  streamRef (mount (tallContainer 0) initialApp) = None /\
  liveStreams
    (@run desktop [CameraButton; MediaSettled 0 true; MediaSettled 0 true]
       (mount (tallContainer 0) initialApp))
  = [ {| getTracks := [0%nat; 1%nat] |}; {| getTracks := [2%nat; 3%nat] |} ] /\
  streamRef
    (@run desktop [CameraButton; MediaSettled 0 true; MediaSettled 0 true]
       (mount (tallContainer 0) initialApp))
  = Some {| getTracks := [2%nat; 3%nat] |}.
Proof. repeat split. Qed.

(** * Further properties of the component *)

(** ** Running the animation loop *)

Section Frames.

Context {P : Platform}.

Lemma animate_keeps_isDragging (a : App) :
  isDragging (animate a) = isDragging a.
Proof.
  unfold animate. destruct (scrollContainerRef a) as [el|]; simpl; auto.
  destruct (isScrolling a && negb (isDragging a)); simpl; auto.
  destruct (Qle_bool _ _); reflexivity.
Qed.

Lemma frames_resync (n : nat) : forall (a : App) (el : Element),
  scrollContainerRef a = Some el ->
  isScrolling a && negb (isDragging a) = false ->
  scrollContainerRef (run (frames n) a) = Some el /\
  isScrolling (run (frames n) a) = isScrolling a /\
  isDragging (run (frames n) a) = isDragging a /\
  ((1 <= n)%nat -> scrollPosRef (run (frames n) a) = scrollTop el).
Proof.
  induction n as [|n IH]; intros a el Hel Hc.
  - simpl. repeat split; auto. lia.
  - change (run (frames (S n)) a) with (run (frames n) (animate a)).
    destruct (animate_sync a el Hel Hc) as (Sp & Ss & Sc).
    pose proof (animate_keeps_isDragging a) as Sd.
    destruct (IH (animate a) el Sc) as (Ic & Is & Id & Ip).
    { rewrite Ss, Sd. exact Hc. }
    rewrite Ic, Is, Id, Ss, Sd. repeat split; auto.
    intros _. destruct n as [|n]; [exact Sp|]. apply Ip. lia.
Qed.

(** X2.  While auto-scrolling is off, or a drag is in progress, frames
    never write to the container: after any number of them the container
    is as it was, and from the first frame on the position ref equals the
    rendered offset. *)
Theorem frames_without_auto_scroll_only_resync (a : App) (el : Element)
    (n : nat) :
  scrollContainerRef a = Some el ->
  isScrolling a = false \/ isDragging a = true ->
  (1 <= n)%nat ->
  scrollContainerRef (run (frames n) a) = Some el /\
  scrollPosRef (run (frames n) a) = scrollTop el /\
  isScrolling (run (frames n) a) = isScrolling a /\
  isDragging (run (frames n) a) = isDragging a.
Proof.
  intros Hel Hc Hn.
  assert (C : isScrolling a && negb (isDragging a) = false).
  { destruct Hc as [-> | ->]; [reflexivity|]. apply andb_false_r. }
  destruct (frames_resync n a el Hel C) as (H1 & H2 & H3 & H4).
  repeat split; auto.
Qed.

(** X3.  At the end of the script auto-scrolling cannot be resumed: with
    the position at (or past) the extent, pressing play and letting one
    frame pass leaves the position at the extent and auto-scrolling off
    again. *)
Theorem play_at_end_stops_again (a : App) (el : Element) :
  scrollContainerRef a = Some el ->
  isScrolling a = false -> isDragging a = false ->
  0 <= speed (config a) ->
  maxScrollOf el <= scrollPosRef a ->
  isScrolling (run [PlayButton] a) = true /\
  isScrolling (run [PlayButton; Frame] a) = false /\
  scrollPosRef (run [PlayButton; Frame] a) = maxScrollOf el.
Proof.
  intros Hel Hs Hd Hspeed Hend.
  assert (Hplay : isScrolling (toggleScrolling a) = true)
    by (unfold toggleScrolling; simpl; rewrite Hs; reflexivity).
  split; [exact Hplay|].
  destruct (animate_auto (toggleScrolling a) el Hel Hplay Hd)
    as [_ Reached].
  destruct Reached as (Rp & Rs & _); [|split; assumption].
  apply Qle_bool_iff. simpl.
  assert (0 <= speed (config a) * baseSpeed)
    by (apply Qmult_le_0_compat; [exact Hspeed|unfold baseSpeed; lra]).
  lra.
Qed.

End Frames.

(** ** Dragging, continued *)

Section DragAnchor.

Context {P : Platform}.

(** What a drag keeps fixed after the pointer went down at [y0] on the
    container [el]. *)
Lemma drag_anchor_kept (mid : list Event) : forall (a : App) (el0 : Element)
    (top : Q) (anchor : Q) (off : Q),
  Forall duringDrag mid ->
  scrollContainerRef a = Some el0 -> offsetTop el0 = off ->
  isDragging a = true -> startY a = anchor -> startScrollTop a = top ->
  exists el',
    scrollContainerRef (run mid a) = Some el' /\ offsetTop el' = off /\
    isDragging (run mid a) = true /\
    startY (run mid a) = anchor /\ startScrollTop (run mid a) = top.
Proof.
  induction mid as [|e mid IH]; intros a el0 top anchor off F Hel Ho Hd Hy Ht.
  - exists el0. simpl. auto.
  - inversion F as [|? ? He Hmid]; subst.
    destruct e; try contradiction; simpl.
    + assert (C : isScrolling a && negb (isDragging a) = false)
        by (rewrite Hd; apply andb_false_r).
      destruct (animate_sync a el0 Hel C) as (_ & _ & Sc).
      apply (IH (animate a) el0); auto.
      * rewrite animate_keeps_isDragging. exact Hd.
      * unfold animate. rewrite Hel, C. reflexivity.
      * unfold animate. rewrite Hel, C. reflexivity.
    + assert (Hmove : handleMouseMove pageY a =
                      set_scrollContainerRef
                        (Some (assignScrollTop el0 (dragTarget pageY el0 a)))
                        a)
        by (unfold handleMouseMove; rewrite Hd, Hel; reflexivity).
      apply (IH (handleMouseMove pageY a)
               (assignScrollTop el0 (dragTarget pageY el0 a))); auto;
        rewrite Hmove; simpl; auto.
Qed.

(** X4.  A drag is relative to its anchor.  After the pointer went down at
    [y0], whatever moves and frames came in between, a move to [y] asks the
    container for the offset it showed at pointer-down minus one and a half
    times [y - y0]: earlier moves leave no trace in the request. *)
Theorem drag_request_is_relative_to_anchor (a : App) (el : Element)
    (y0 y : Q) (mid : list Event) :
  scrollContainerRef a = Some el ->
  Forall duringDrag mid ->
  exists el',
    scrollContainerRef (run (MouseDown y0 :: mid) a) = Some el' /\
    scrollContainerRef (run (MouseDown y0 :: mid ++ [MouseMove y]) a)
      = Some (assignScrollTop el'
                (dragTarget y el' (run (MouseDown y0 :: mid) a))) /\
    dragTarget y el' (run (MouseDown y0 :: mid) a)
      == scrollTop el - (y - y0) * (3 # 2).
Proof.
  intros Hel Hmid.
  assert (Hdown : handleMouseDown y0 a =
                  set_isScrolling false
                    (set_startScrollTop (scrollTop el)
                      (set_startY (y0 - offsetTop el)
                        (set_isDragging true a))))
    by (unfold handleMouseDown; rewrite Hel; reflexivity).
  assert (Kept : exists el',
            scrollContainerRef (run mid (handleMouseDown y0 a)) = Some el' /\
            offsetTop el' = offsetTop el /\
            isDragging (run mid (handleMouseDown y0 a)) = true /\
            startY (run mid (handleMouseDown y0 a)) = y0 - offsetTop el /\
            startScrollTop (run mid (handleMouseDown y0 a)) = scrollTop el).
  { apply (drag_anchor_kept mid (handleMouseDown y0 a) el); auto;
      rewrite Hdown; simpl; auto. }
  destruct Kept as (el' & Hc & Ho & Hd & Hy & Ht).
  exists el'. change (run (MouseDown y0 :: mid) a)
    with (run mid (handleMouseDown y0 a)).
  split; [exact Hc|]. split.
  - change (run (MouseDown y0 :: mid ++ [MouseMove y]) a)
      with (run (mid ++ [MouseMove y]) (handleMouseDown y0 a)).
    unfold run at 1. rewrite fold_left_app. simpl.
    fold (run mid (handleMouseDown y0 a)).
    unfold handleMouseMove. rewrite Hd. simpl. rewrite Hc. reflexivity.
  - unfold dragTarget, dragSensitivity. rewrite Hy, Ht, Ho. ring.
Qed.

Lemma moves_outside_drag (es : list Event) (a : App) :
  isDragging a = false -> Forall isMove es -> run es a = a.
Proof.
  intros Hd F. induction F as [|e es He _ IH]; [reflexivity|].
  destruct e; try contradiction. simpl.
  unfold handleMouseMove. rewrite Hd. exact IH.
Qed.

(** X5.  Pointer moves scroll only during a drag: once the pointer is up
    (or has left), or before it ever went down, any run of moves leaves the
    whole state as it is. *)
Theorem moves_after_release_change_nothing (a : App) (final : Event)
    (es : list Event) :
  endsDrag final ->
  Forall isMove es ->
  run (final :: es) a = step final a /\
  (isDragging a = false -> run es a = a).
Proof.
  intros Hfinal F. split.
  - change (run (final :: es) a) with (run es (step final a)).
    apply moves_outside_drag; [|exact F].
    destruct Hfinal as [-> | ->]; reflexivity.
  - intros Hd. apply moves_outside_drag; assumption.
Qed.

End DragAnchor.

(** ** Buffering and assembling a recording *)

Ltac unfold_handlers :=
  unfold step, animate, handleMouseDown, handleMouseMove,
    handleMouseUp, handleTouchStart, toggleScrolling, resetScroll,
    recordButton, startRecording, stopRecording, recorderStop, recorderStart,
    newMediaRecorder, discardVideo, toggleCamera, initCamera, cameraCleanup,
    getUserMedia, stopTracks, shareApp, ondataavailable, onstop,
    createObjectURL, mediaSettled, grantStream, playRejected, say,
    requestAnimationFrame.

Lemma set_recordedChunksRef_same (a : App) :
  set_recordedChunksRef (recordedChunksRef a) a = a.
Proof. destruct a; reflexivity. Qed.

Lemma empty_chunk_has_no_bytes (d : Blob) :
  nonEmpty d = false -> blobBytes d = [].
Proof.
  unfold nonEmpty, size. intros H. apply Nat.ltb_ge in H.
  apply length_zero_iff_nil. lia.
Qed.

Lemma bytes_of_kept_chunks (datas : list Blob) :
  List.concat (map blobBytes (filter nonEmpty datas))
  = List.concat (map blobBytes datas).
Proof.
  induction datas as [|d datas IH]; [reflexivity|]. simpl.
  destruct (nonEmpty d) eqn:E; simpl; rewrite IH; [reflexivity|].
  rewrite (empty_chunk_has_no_bytes d E). reflexivity.
Qed.

Section Buffer.

Context {P : Platform}.

Lemma data_is_buffered (r : RecorderId) (datas : list Blob) :
  forall a : App,
  (r < List.length (recorders a))%nat ->
  run (map (DataAvailable r) datas) a
  = set_recordedChunksRef (recordedChunksRef a ++ filter nonEmpty datas) a.
Proof.
  induction datas as [|d datas IH]; intros a Hr.
  - simpl. rewrite app_nil_r. symmetry. apply set_recordedChunksRef_same.
  - change (run (map (DataAvailable r) (d :: datas)) a)
      with (run (map (DataAvailable r) datas) (ondataavailable r d a)).
    assert (Hex : exists rec, nth_error (recorders a) r = Some rec).
    { destruct (nth_error (recorders a) r) eqn:E; [eauto|].
      apply nth_error_None in E. lia. }
    destruct Hex as (rec & Hrec).
    unfold ondataavailable. rewrite Hrec. fold (nonEmpty d). simpl.
    destruct (nonEmpty d).
    + rewrite IH by exact Hr. simpl.
      rewrite <- app_assoc. reflexivity.
    + apply IH, Hr.
Qed.

(** X6.  Data delivered to an existing recorder is buffered in the order
    of arrival, empty data left out; nothing but the buffer changes. *)
Theorem chunks_are_buffered_in_order (r : RecorderId) (datas : list Blob)
    (a : App) :
  (r < List.length (recorders a))%nat ->
  recordedChunksRef (run (map (DataAvailable r) datas) a)
    = recordedChunksRef a ++ filter (fun d => (0 <? size d)%nat) datas /\
  forall chunks,
    set_recordedChunksRef chunks (run (map (DataAvailable r) datas) a)
    = set_recordedChunksRef chunks a.
Proof.
  intros Hr. rewrite (data_is_buffered r datas a Hr). split; reflexivity.
Qed.

(** X7.  A recording holds what was delivered.  From any state with a
    stream, whatever the buffer held before: start, let the new recorder
    deliver [datas], stop, and let its [stop] event arrive.  The result
    handle then points to a blob whose bytes are those of [datas]
    concatenated in order and whose type is the selected one, and the
    controller is reviewing. *)
Theorem recording_holds_what_was_delivered (a : App) (s : MediaStream)
    (datas : list Blob) :
  stream a = Some s ->
  let r := List.length (recorders a) in
  let final :=
    onstop r
      (stopRecording (run (map (DataAvailable r) datas) (startRecording a))) in
  exists blob,
    videoUrl final = Some (List.length (objectUrls a)) /\
    nth_error (objectUrls final) (List.length (objectUrls a)) = Some blob /\
    blobBytes blob = List.concat (map blobBytes datas) /\
    blobType blob = selectMimeType /\
    reviewing final.
Proof.
  intros Hs r final. subst final r.
  rewrite data_is_buffered
    by (rewrite (startRecording_with_stream a s Hs); simpl;
        rewrite length_app; simpl; lia).
  rewrite (startRecording_with_stream a s Hs). simpl.
  unfold stopRecording, recorderStop. simpl.
  rewrite nth_error_app2, Nat.sub_diag by lia. simpl.
  rewrite setRecorderState_last.
  unfold onstop, createObjectURL. simpl.
  rewrite nth_error_app2, Nat.sub_diag by lia. simpl.
  eexists. split; [reflexivity|].
  split; [rewrite nth_error_app2, Nat.sub_diag by lia; reflexivity|].
  split; [apply bytes_of_kept_chunks|]. split; [reflexivity|].
  unfold reviewing. simpl. eauto.
Qed.

Lemma step_buffer_untouched (e : Event) (a : App) :
  touchesBuffer e = false ->
  recordedChunksRef (step e a) = recordedChunksRef a.
Proof.
  destruct e; simpl; try discriminate; intros _;
  unfold animate, handleMouseDown, handleMouseMove,
    handleMouseUp, handleTouchStart, toggleScrolling, resetScroll,
    discardVideo, toggleCamera, initCamera, cameraCleanup,
    getUserMedia, stopTracks, shareApp, onstop,
    createObjectURL, mediaSettled, grantStream, playRejected, say,
    requestAnimationFrame; split_handler.
Qed.

Lemma recordButton_buffer (a : App) :
  recordedChunksRef (recordButton a) = recordedChunksRef a \/
  recordedChunksRef (recordButton a) = [].
Proof.
  unfold recordButton, startRecording, stopRecording, recorderStop,
    newMediaRecorder, recorderStart.
  split_handler.
Qed.

Lemma step_chunksNonEmpty (e : Event) (a : App) :
  chunksNonEmpty a -> chunksNonEmpty (step e a).
Proof.
  unfold chunksNonEmpty. intros H.
  destruct (touchesBuffer e) eqn:T.
  - destruct e; try discriminate; simpl.
    + destruct (recordButton_buffer a) as [-> | ->]; [exact H|constructor].
    + unfold ondataavailable.
      destruct (nth_error (recorders a) r); [|exact H].
      fold (nonEmpty data). destruct (nonEmpty data) eqn:E; [|exact H].
      simpl. apply Forall_app. split; [exact H|].
      constructor; [exact E|constructor].
  - rewrite (step_buffer_untouched e a T). exact H.
Qed.

(** X8.  The buffer never holds an empty chunk: if it holds none, no
    sequence of events puts one there. *)
Theorem buffer_never_holds_empty_chunk (a : App) (es : list Event) :
  Forall (fun c => (0 < size c)%nat) (recordedChunksRef a) ->
  Forall (fun c => (0 < size c)%nat) (recordedChunksRef (run es a)).
Proof.
  intros H.
  assert (Inv : chunksNonEmpty (run es a)).
  { assert (H0 : chunksNonEmpty a).
    { unfold chunksNonEmpty. eapply Forall_impl; [|exact H].
      intros c Hc. apply Nat.ltb_lt. exact Hc. }
    clear H. revert a H0. induction es as [|e es IH]; intros a H0;
      [exact H0|].
    simpl. apply IH, step_chunksNonEmpty, H0. }
  eapply Forall_impl; [|exact Inv].
  intros c Hc. apply Nat.ltb_lt. exact Hc.
Qed.

End Buffer.

(** ** Handles into the browser's stores *)

Section Handles.

Context {P : Platform}.

Lemma step_result_untouched (e : Event) (a : App) :
  touchesResult e = false ->
  videoUrl (step e a) = videoUrl a /\ objectUrls (step e a) = objectUrls a.
Proof.
  destruct e; simpl; try discriminate; intros _;
  unfold animate, handleMouseDown, handleMouseMove,
    handleMouseUp, handleTouchStart, toggleScrolling, resetScroll,
    toggleCamera, initCamera, cameraCleanup,
    getUserMedia, stopTracks, shareApp, ondataavailable,
    mediaSettled, grantStream, playRejected, say,
    requestAnimationFrame; split_handler.
Qed.

Lemma recordButton_result (a : App) :
  objectUrls (recordButton a) = objectUrls a /\
  (videoUrl (recordButton a) = videoUrl a \/ videoUrl (recordButton a) = None).
Proof.
  unfold recordButton, startRecording, stopRecording, recorderStop,
    newMediaRecorder, recorderStart.
  split_handler.
Qed.

Lemma recordButton_recorders (a : App) :
  (List.length (recorders a) <= List.length (recorders (recordButton a)))%nat /\
  (mediaRecorderRef (recordButton a) = mediaRecorderRef a \/
   mediaRecorderRef (recordButton a) = Some (List.length (recorders a)) /\
   List.length (recorders (recordButton a)) = S (List.length (recorders a))).
Proof.
  unfold recordButton. destruct (isRecording a) eqn:R.
  - unfold stopRecording, recorderStop. rewrite R.
    destruct (mediaRecorderRef a) as [r|] eqn:Hr;
      [|split; [lia|left; exact Hr]].
    destruct (nth_error (recorders a) r) eqn:Hn; simpl;
      rewrite ?setRecorderState_length; (split; [lia|left; exact Hr]).
  - destruct (stream a) as [s|] eqn:Hs.
    + rewrite (startRecording_with_stream a s Hs). simpl.
      rewrite length_app. simpl. split; [lia|]. right. split; [auto|lia].
    + unfold startRecording. rewrite Hs. split; [lia|left; reflexivity].
Qed.

Lemma step_handlesValid (e : Event) (a : App) :
  handlesValid a -> handlesValid (step e a).
Proof.
  intros [Hurl Hrec]. split.
  - destruct (touchesResult e) eqn:T.
    + destruct e; try discriminate.
      * change (step RecordButton a) with (recordButton a).
        destruct (recordButton_result a) as [Ho [Hv|Hv]]; rewrite Ho, Hv.
        -- exact Hurl.
        -- intros ? [=].
      * simpl. unfold onstop, createObjectURL.
        destruct (nth_error (recorders a) r); simpl; [|exact Hurl].
        intros url [= <-]. rewrite length_app. simpl. lia.
    + destruct (step_result_untouched e a T) as [-> ->]. exact Hurl.
  - assert (D : e = RecordButton \/ e <> RecordButton)
      by (destruct e; (left; reflexivity) || (right; discriminate)).
    destruct D as [->|Hne].
    + simpl. destruct (recordButton_recorders a) as [Hlen [Hsame|[Hnew Hs]]].
      * rewrite Hsame. intros r Hr. specialize (Hrec r Hr). lia.
      * rewrite Hnew, Hs. intros r [= <-]. lia.
    + destruct (step_recording_untouched e a Hne) as (_ & -> & ->).
      exact Hrec.
Qed.

Lemma run_handlesValid (es : list Event) (a : App) :
  handlesValid a -> handlesValid (run es a).
Proof.
  revert a. induction es as [|e es IH]; intros a H; [exact H|].
  simpl. apply IH, step_handlesValid, H.
Qed.

(** X9.  Handles never dangle.  After any sequence of events from the
    initial state, a result handle names a blob that is in the URL store
    (nothing is ever revoked), and the recorder ref names a recorder that
    exists. *)
Theorem handles_always_resolve (es : list Event) :
  (forall url, videoUrl (run es initialApp) = Some url ->
     exists blob, nth_error (objectUrls (run es initialApp)) url = Some blob)
  /\
  (forall r, mediaRecorderRef (run es initialApp) = Some r ->
     exists rec, nth_error (recorders (run es initialApp)) r = Some rec).
Proof.
  assert (H0 : handlesValid initialApp) by (split; intros ? [=]).
  destruct (run_handlesValid es initialApp H0) as [Hurl Hrec].
  split; intros i Hi.
  - specialize (Hurl i Hi). apply nth_error_Some in Hurl.
    destruct (nth_error _ i); [eauto|congruence].
  - specialize (Hrec i Hi). apply nth_error_Some in Hrec.
    destruct (nth_error _ i); [eauto|congruence].
Qed.



End Handles.

(** ** The camera, continued *)

Section CameraMore.

Context {P : Platform}.

Lemma step_facingMode (e : Event) (a : App) :
  facingMode (step e a)
  = if isCameraButton e then flipFacing (facingMode a) else facingMode a.
Proof.
  destruct e; unfold_handlers; split_handler.
Qed.

Lemma flipFacing_twice (fm : FacingMode) : flipFacing (flipFacing fm) = fm.
Proof. destruct fm; reflexivity. Qed.

(** X11.  The facing mode depends only on how many times the camera button
    was pressed: after an even number of presses, whatever else happened
    in between, it is what it was, after an odd number it is the other
    one. *)
Theorem facing_mode_follows_press_parity (es : list Event) (a : App) :
  facingMode (run es a)
  = if Nat.even (cameraPresses es) then facingMode a
    else flipFacing (facingMode a).
Proof.
  revert a. induction es as [|e es IH]; intros a; [reflexivity|].
  change (run (e :: es) a) with (run es (step e a)).
  rewrite IH, step_facingMode. unfold cameraPresses. simpl.
  destruct (isCameraButton e); [|reflexivity].
  cbn [List.length]. rewrite Nat.even_succ, <- Nat.negb_even.
  destruct (Nat.even _); simpl; [reflexivity|apply flipFacing_twice].
Qed.

(** X12.  One retry, then the camera is given up.  When the request with
    the flexible constraints is rejected, the error is logged and one
    request with the basic constraints goes out; when that one is rejected
    too, the error is logged, no request is pending, the streams are as
    they were, and no later settlement changes anything. *)
Theorem camera_is_retried_once (a : App) (fm : FacingMode) :
  pendingMedia a = [Flexible fm] ->
  let retried := mediaSettled 0 false a in
  let given_up := mediaSettled 0 false retried in
  pendingMedia retried = [Basic] /\
  trace retried =
    trace a ++ [ConsoleError "Error accessing camera:"; GetUserMedia Basic] /\
  pendingMedia given_up = [] /\
  trace given_up = trace retried ++ [ConsoleError "Retry failed:"] /\
  stream given_up = stream a /\
  streamRef given_up = streamRef a /\
  grantedStreams given_up = grantedStreams a /\
  forall i granted, mediaSettled i granted given_up = given_up.
Proof.
  intros Hp retried given_up.
  assert (R : retried =
              getUserMedia Basic
                (say (ConsoleError "Error accessing camera:")
                   (set_pendingMedia [] a))).
  { subst retried. unfold mediaSettled. rewrite Hp. reflexivity. }
  assert (Rp : pendingMedia retried = [Basic]) by (rewrite R; reflexivity).
  assert (G : given_up =
              say (ConsoleError "Retry failed:")
                (set_pendingMedia [] retried)).
  { subst given_up. unfold mediaSettled. rewrite Rp. reflexivity. }
  split; [exact Rp|].
  split; [rewrite R; unfold getUserMedia, say; simpl;
          rewrite <- app_assoc; reflexivity|].
  split; [rewrite G; reflexivity|].
  split; [rewrite G; reflexivity|].
  repeat (split; [rewrite G, R; reflexivity|]).
  intros i granted. unfold mediaSettled at 1.
  assert (E : pendingMedia given_up = []) by (rewrite G; reflexivity).
  rewrite E. destruct i; reflexivity.
Qed.

Lemma step_view_untouched (e : Event) (a : App) :
  touchesCamera e = false ->
  stream (step e a) = stream a /\ videoRef (step e a) = videoRef a.
Proof.
  destruct e; simpl; try discriminate; intros _;
  unfold animate, handleMouseDown, handleMouseMove,
    handleMouseUp, handleTouchStart, toggleScrolling, resetScroll,
    recordButton, startRecording, stopRecording, recorderStop, recorderStart,
    newMediaRecorder, discardVideo, shareApp, ondataavailable, onstop,
    createObjectURL, playRejected, say, requestAnimationFrame;
  split_handler.
Qed.

Lemma toggleCamera_releases (a : App) : streamRef (toggleCamera a) = None.
Proof.
  unfold toggleCamera, initCamera, cameraCleanup, getUserMedia, stopTracks,
    say. split_handler.
Qed.

Lemma mediaSettled_heldIsShown (i : nat) (granted : bool) (a : App) :
  heldIsShown a -> heldIsShown (mediaSettled i granted a).
Proof.
  unfold heldIsShown. intros H.
  unfold mediaSettled, grantStream, getUserMedia, say.
  destruct (nth_error (pendingMedia a) i) as [c|]; [|exact H].
  destruct c as [fm|], granted; simpl; try exact H;
    destruct (videoRef a) as [v0|] eqn:V; simpl; intros s [= <-];
      (split; [reflexivity|]); rewrite ?V; intros w [= <-]; reflexivity.
Qed.

Lemma step_heldIsShown (e : Event) (a : App) :
  heldIsShown a -> heldIsShown (step e a).
Proof.
  intros H. destruct (touchesCamera e) eqn:T.
  - destruct e; try discriminate.
    + intros s Hs. change (step CameraButton a) with (toggleCamera a) in Hs.
      rewrite toggleCamera_releases in Hs. discriminate Hs.
    + apply mediaSettled_heldIsShown, H.
  - destruct (step_camera_untouched e a T) as (H1 & _).
    destruct (step_view_untouched e a T) as (H2 & H3).
    unfold heldIsShown. rewrite H1, H2, H3. exact H.
Qed.

(** X13.  The held stream is the shown stream.  If, whenever [streamRef]
    holds a stream, the [stream] state and the video element hold the same
    one, then so it stays under every sequence of events. *)
Theorem held_stream_is_the_shown_stream (a : App) (es : list Event) :
  heldIsShown a ->
  forall s, streamRef (run es a) = Some s ->
    stream (run es a) = Some s /\
    forall v, videoRef (run es a) = Some v -> srcObject v = Some s.
Proof.
  intros H. fold (heldIsShown (run es a)).
  revert a H. induction es as [|e es IH]; intros a H; [exact H|].
  simpl. apply IH, step_heldIsShown, H.
Qed.

(** X14.  Between a camera switch and the grant of the new stream the
    [stream] state still holds the stream that was just released:
    [initCamera] clears [streamRef] but not [stream].  The guard of
    [startRecording] therefore passes in that window: the buffer and the
    result handle are reset and a recorder of the selected type is created
    on the ended stream and put in [mediaRecorderRef]. *)
Theorem recording_after_switch_passes_stream_guard (a : App)
    (s : MediaStream) :
  streamRef a = Some s ->
  stream a = Some s ->
  let switched := step CameraButton a in
  streamRef switched = None /\
  stream switched = Some s /\
  isLive (endedTracks switched) s = false /\
  recordedChunksRef (startRecording switched) = [] /\
  videoUrl (startRecording switched) = None /\
  mediaRecorderRef (startRecording switched)
    = Some (List.length (recorders a)) /\
  exists rec,
    nth_error (recorders (startRecording switched))
              (List.length (recorders a)) = Some rec /\
    recStream rec = s /\
    mimeType rec = selectMimeType.
Proof.
  intros Href Hs switched. subst switched.
  change (step CameraButton a) with (toggleCamera a).
  destruct (toggleCamera_held a s Href) as (_ & He & Hr & _).
  assert (Hst : stream (toggleCamera a) = Some s).
  { rewrite <- Hs. unfold toggleCamera, initCamera, cameraCleanup,
      getUserMedia, stopTracks, say. split_handler. }
  assert (Hrec : recorders (toggleCamera a) = recorders a).
  { unfold toggleCamera, initCamera, cameraCleanup,
      getUserMedia, stopTracks, say. split_handler. }
  split; [exact Hr|]. split; [exact Hst|].
  split; [rewrite He; apply isLive_stopped|].
  clear He Hr. revert Hst Hrec. generalize (toggleCamera a) as b.
  intros b Hst Hrec.
  rewrite (startRecording_with_stream b s Hst).
  cbn [recordedChunksRef videoUrl recorders mediaRecorderRef
       set_isScrolling set_isRecording set_recorders set_mediaRecorderRef
       set_videoUrl set_recordedChunksRef].
  rewrite Hrec. split; [reflexivity|]. split; [reflexivity|].
  split; [reflexivity|].
  eexists. split.
  - rewrite nth_error_app2, Nat.sub_diag by lia. reflexivity.
  - split; reflexivity.
Qed.

End CameraMore.

(** ** Saving the result *)

Lemma append_same_prefix (p x y : string) :
  String.append p x = String.append p y -> x = y.
Proof.
  induction p as [|c p IH]; simpl; intros H; [exact H|].
  injection H as H. apply IH, H.
Qed.

Lemma decimal_starts_with_digit (n : N) (rest tail : string) :
  String.append (decimal n) rest <> String.append "v" tail.
Proof.
  unfold decimal, NilZero.string_of_uint.
  destruct (N.to_uint n); simpl; discriminate.
Qed.

Section DownloadProps.

Context {P : Platform}.

(** X15.  Saving ends in exactly one of two ways.  With no result nothing
    happens.  With a result, if every step of the share path goes through
    (the share API is there, the blob is fetched, the file is accepted and
    the share resolves) the file is shared and nothing is downloaded; in
    every other case, a failure anywhere on the share path included, the
    anchor download of the result runs, once, as the last thing done. *)
Theorem save_shares_or_downloads (canShareApi fetched accepted shared : bool)
    (now1 now2 : N) (a : App) :
  let effects :=
    handleDownload canShareApi fetched accepted shared now1 now2 a in
  (videoUrl a = None -> effects = []) /\
  (forall url, videoUrl a = Some url ->
     if shareCompletes canShareApi fetched accepted shared a then
       filter isAnchorClick effects = [] /\
       exists file, last effects (Fetch url) = ShareFiles file shareTitle
     else
       filter isAnchorClick effects = [AnchorClick url (downloadName now2)] /\
       last effects (Fetch url) = AnchorClick url (downloadName now2)).
Proof.
  intros effects. subst effects. unfold handleDownload, shareCompletes.
  split; [intros ->; reflexivity|].
  intros url ->.
  destruct hasShare, canShareApi, fetched; simpl; auto;
    destruct (nth_error (objectUrls a) url); simpl; auto;
    destruct accepted; simpl; auto;
    destruct shared; simpl; eauto.
Qed.

(** X16.  What is shared is the recorded blob under an MP4 label: a file
    handed to the share sheet has the bytes of the blob behind the result
    handle, the type ["video/mp4"] and a name ending in [.mp4], whatever
    type the recording has. *)
Theorem shared_file_is_the_result_as_mp4
    (canShareApi fetched accepted shared : bool) (now1 now2 : N) (a : App)
    (file : File) (title : string) :
  In (ShareFiles file title)
     (handleDownload canShareApi fetched accepted shared now1 now2 a) ->
  exists url blob,
    videoUrl a = Some url /\
    nth_error (objectUrls a) url = Some blob /\
    fileBytes file = blobBytes blob /\
    fileType file = "video/mp4" /\
    fileName file = sharedName now1 /\
    title = shareTitle.
Proof.
  unfold handleDownload.
  destruct (videoUrl a) as [url|]; [|intros []].
  destruct (hasShare && canShareApi); simpl;
    [|intros [H|[]]; discriminate H].
  intros [H|H]; [discriminate H|]. revert H.
  destruct fetched;
    [destruct (nth_error (objectUrls a) url) as [blob|] eqn:E|];
    simpl.
  - intros [H|H]; [discriminate H|]. revert H.
    destruct accepted; simpl.
    + intros [H|H].
      * injection H as <- <-. exists url, blob. repeat split; auto.
      * destruct shared; simpl in H; [destruct H|].
        destruct H as [H|[H|[]]]; discriminate H.
    + intros [H|[]]; discriminate H.
  - intros [H|[H|[]]]; discriminate H.
  - intros [H|[H|[]]]; discriminate H.
Qed.

End DownloadProps.

(** X17.  The two ways of saving never give the file the same name: the
    shared file is [teleprompter_<time>.mp4], the downloaded one
    [teleprompter_video_<time>.mp4], and no clock values make them
    coincide. *)
Theorem shared_and_downloaded_names_differ (now1 now2 : N) :
  sharedName now1 <> downloadName now2.
Proof.
  change (downloadName now2)
    with (String.append "teleprompter_"
            (String.append "v"
               (String.append "ideo_"
                  (String.append (decimal now2) ".mp4")))).
  unfold sharedName. intros H.
  apply append_same_prefix in H.
  exact (decimal_starts_with_digit now1 _ _ H).
Qed.

(** ** Nothing is revoked *)

Section UrlStore.

Context {P : Platform}.

Lemma step_objectUrls_grow (e : Event) (a : App) :
  exists more, objectUrls (step e a) = objectUrls a ++ more.
Proof.
  destruct (touchesResult e) eqn:T.
  - destruct e; try discriminate.
    + change (step RecordButton a) with (recordButton a).
      destruct (recordButton_result a) as [-> _].
      exists []. symmetry. apply app_nil_r.
    + exists []. symmetry. apply app_nil_r.
    + simpl. unfold onstop, createObjectURL.
      destruct (nth_error (recorders a) r) as [rec|]; simpl.
      * eexists. reflexivity.
      * exists []. symmetry. apply app_nil_r.
  - destruct (step_result_untouched e a T) as [_ ->].
    exists []. symmetry. apply app_nil_r.
Qed.

(** X18.  No object URL is ever revoked: under any sequence of events the
    URL store keeps every blob it had, at the same index; a discarded
    result is dropped from [videoUrl] only. *)
Theorem object_urls_are_never_revoked (es : list Event) (a : App) :
  (exists more, objectUrls (run es a) = objectUrls a ++ more) /\
  videoUrl (step DiscardButton a) = None /\
  objectUrls (step DiscardButton a) = objectUrls a.
Proof.
  split; [|split; reflexivity].
  revert a. induction es as [|e es IH]; intros a.
  - exists []. symmetry. apply app_nil_r.
  - change (run (e :: es) a) with (run es (step e a)).
    destruct (IH (step e a)) as (m2 & ->).
    destruct (step_objectUrls_grow e a) as (m1 & ->).
    exists (m1 ++ m2). symmetry. apply app_assoc.
Qed.

End UrlStore.

(** ** Concrete runs of the further properties *)

Lemma frames_without_auto_scroll_only_resync_witness :
  scrollContainerRef (@run desktop (frames 3) (@ready desktop))
    = Some (tallContainer 0) /\
  scrollPosRef (@run desktop (frames 3) (@ready desktop))
    = scrollTop (tallContainer 0) /\
  isScrolling (@run desktop (frames 3) (@ready desktop))
    = isScrolling (@ready desktop) /\
  isDragging (@run desktop (frames 3) (@ready desktop))
    = isDragging (@ready desktop).
Proof.
  apply (@frames_without_auto_scroll_only_resync desktop (@ready desktop)
           (tallContainer 0) 3).
  - reflexivity.
  - left; reflexivity.
  - lia.
Defined.

Lemma play_at_end_stops_again_witness :
  isScrolling (@run desktop [PlayButton]
                 (@run desktop (frames 2) (@nearEnd desktop))) = true /\
  isScrolling (@run desktop [PlayButton; Frame]
                 (@run desktop (frames 2) (@nearEnd desktop))) = false /\
  scrollPosRef (@run desktop [PlayButton; Frame]
                  (@run desktop (frames 2) (@nearEnd desktop)))
    = maxScrollOf
        {| scrollTop := clampTo (tallContainer 995) (1400 - 400);
           scrollHeight := 1400; clientHeight := 400; offsetTop := 0 |}.
Proof.
  apply (@play_at_end_stops_again desktop
           (@run desktop (frames 2) (@nearEnd desktop))).
  - vm_compute. reflexivity.
  - reflexivity.
  - reflexivity.
  - vm_compute; discriminate.
  - vm_compute; discriminate.
Defined.

Lemma drag_request_is_relative_to_anchor_witness :
  exists el',
    scrollContainerRef
      (@run desktop (MouseDown 300 :: [MouseMove 250; Frame; MouseMove 90])
         (@ready desktop)) = Some el' /\
    scrollContainerRef
      (@run desktop
         (MouseDown 300 :: [MouseMove 250; Frame; MouseMove 90]
            ++ [MouseMove 200]) (@ready desktop))
      = Some (@assignScrollTop desktop el'
                (dragTarget 200 el'
                   (@run desktop
                      (MouseDown 300 :: [MouseMove 250; Frame; MouseMove 90])
                      (@ready desktop)))) /\
    dragTarget 200 el'
      (@run desktop (MouseDown 300 :: [MouseMove 250; Frame; MouseMove 90])
         (@ready desktop))
      == scrollTop (tallContainer 0) - (200 - 300) * (3 # 2).
Proof.
  apply (@drag_request_is_relative_to_anchor desktop (@ready desktop)
           (tallContainer 0) 300 200 [MouseMove 250; Frame; MouseMove 90]).
  - reflexivity.
  - repeat constructor.
Defined.

Lemma moves_after_release_change_nothing_witness :
  @run desktop (MouseUp :: [MouseMove 10; MouseMove 700])
    (@run desktop [MouseDown 300; MouseMove 250] (@ready desktop))
  = @step desktop MouseUp
      (@run desktop [MouseDown 300; MouseMove 250] (@ready desktop)).
Proof.
  destruct (@moves_after_release_change_nothing desktop
              (@run desktop [MouseDown 300; MouseMove 250] (@ready desktop))
              MouseUp [MouseMove 10; MouseMove 700]) as [H _].
  - left; reflexivity.
  - repeat constructor.
  - exact H.
Defined.

Lemma chunks_are_buffered_in_order_witness :
  recordedChunksRef
    (@run desktop
       (map (DataAvailable 0)
          [ {| blobBytes := []; blobType := "video/webm" |};
            {| blobBytes := [Byte.xdf]; blobType := "video/webm" |} ])
       (@midRecording desktop))
  = recordedChunksRef (@midRecording desktop) ++
    filter (fun d => (0 <? size d)%nat)
      [ {| blobBytes := []; blobType := "video/webm" |};
        {| blobBytes := [Byte.xdf]; blobType := "video/webm" |} ].
Proof.
  destruct (@chunks_are_buffered_in_order desktop 0%nat
              [ {| blobBytes := []; blobType := "video/webm" |};
                {| blobBytes := [Byte.xdf]; blobType := "video/webm" |} ]
              (@midRecording desktop)) as [H _].
  - vm_compute. lia.
  - exact H.
Defined.

Lemma recording_holds_what_was_delivered_witness :
  let datas :=
    [ {| blobBytes := [Byte.x1a; Byte.x45]; blobType := "video/webm" |};
      {| blobBytes := []; blobType := "video/webm" |};
      {| blobBytes := [Byte.xdf]; blobType := "video/webm" |} ] in
  let r := List.length (recorders (@ready desktop)) in
  let final :=
    onstop r
      (stopRecording
         (@run desktop (map (DataAvailable r) datas)
            (@startRecording desktop (@ready desktop)))) in
  exists blob,
    videoUrl final = Some (List.length (objectUrls (@ready desktop))) /\
    nth_error (objectUrls final) (List.length (objectUrls (@ready desktop)))
      = Some blob /\
    blobBytes blob = List.concat (map blobBytes datas) /\
    blobType blob = @selectMimeType desktop /\
    reviewing final.
Proof.
  intros datas.
  apply (@recording_holds_what_was_delivered desktop (@ready desktop)
           frontCamera datas).
  reflexivity.
Defined.

Lemma buffer_never_holds_empty_chunk_witness :
  Forall (fun c => (0 < size c)%nat)
    (recordedChunksRef
       (@run desktop
          [RecordButton;
           DataAvailable 0 {| blobBytes := []; blobType := "video/webm" |};
           DataAvailable 0 {| blobBytes := [Byte.xdf];
                              blobType := "video/webm" |}]
          (@ready desktop))).
Proof.
  apply (@buffer_never_holds_empty_chunk desktop (@ready desktop)).
  constructor.
Defined.


Lemma camera_is_retried_once_witness :
  pendingMedia
    (mediaSettled 0 false
       (mediaSettled 0 false (mount (tallContainer 0) initialApp))) = [].
Proof.
  destruct (camera_is_retried_once (mount (tallContainer 0) initialApp) user)
    as (_ & _ & H & _).
  - reflexivity.
  - exact H.
Defined.

Lemma held_stream_is_the_shown_stream_witness :
  stream (@run desktop [CameraButton; MediaSettled 0 false;
                        MediaSettled 0 true] (@ready desktop))
  = Some {| getTracks := [2%nat; 3%nat] |}.
Proof.
  destruct (@held_stream_is_the_shown_stream desktop (@ready desktop)
              [CameraButton; MediaSettled 0 false; MediaSettled 0 true])
    with (s := {| getTracks := [2%nat; 3%nat] |}) as [H _].
  - intros s Hs. vm_compute in Hs. injection Hs as <-.
    split; [reflexivity|]. intros v Hv. vm_compute in Hv.
    injection Hv as <-. reflexivity.
  - reflexivity.
  - exact H.
Defined.

Lemma recording_after_switch_passes_stream_guard_witness :
  stream (@step desktop CameraButton (@ready desktop)) = Some frontCamera /\
  isLive (endedTracks (@step desktop CameraButton (@ready desktop)))
    frontCamera = false.
Proof.
  destruct (@recording_after_switch_passes_stream_guard desktop
              (@ready desktop) frontCamera) as (_ & H1 & H2 & _).
  - reflexivity.
  - reflexivity.
  - split; [exact H1|exact H2].
Defined.

Lemma save_shares_or_downloads_witness :
  filter isAnchorClick
    (@handleDownload mobile true true true false 1700000000123 1700000004567
       (@recorded mobile))
  = [AnchorClick 0%nat (downloadName 1700000004567)].
Proof.
  destruct (@save_shares_or_downloads mobile true true true false
              1700000000123 1700000004567 (@recorded mobile)) as [_ H].
  specialize (H 0%nat eq_refl).
  change (@shareCompletes mobile true true true false (@recorded mobile))
    with false in H.
  destruct H as [H _]. exact H.
Defined.

Lemma shared_file_is_the_result_as_mp4_witness :
  exists url blob,
    videoUrl (@recorded desktop) = Some url /\
    nth_error (objectUrls (@recorded desktop)) url = Some blob /\
    blobType blob = "video/webm" /\
    fileType {| fileBytes := [Byte.x1a; Byte.x45; Byte.xdf];
                fileName := sharedName 1700000000123;
                fileType := "video/mp4" |} = "video/mp4".
Proof.
  destruct (@shared_file_is_the_result_as_mp4 mobile true true true true
              1700000000123 1700000004567
              (@recorded desktop)
              {| fileBytes := [Byte.x1a; Byte.x45; Byte.xdf];
                 fileName := sharedName 1700000000123;
                 fileType := "video/mp4" |} shareTitle)
    as (url & blob & Hu & Hb & _ & Ht & _).
  - vm_compute. right. right. left. reflexivity.
  - exists url, blob. vm_compute in Hu. injection Hu as <-.
    vm_compute in Hb. injection Hb as <-.
    repeat split.
Defined.

(** ** Where the code misses *)

(** C7.  The press made while a stream is held does release it first, and
    two streams are live afterwards all the same.  In [pressedEarly] the
    stream [0,1] is held, it is the only live one, and a second request is
    still pending.  The camera button stops both tracks of [0,1] (twice)
    before it calls [getUserMedia]; when the two pending requests are
    granted, the streams [2,3] and [4,5] are both live and only the second
    is held.  The same happens when the press comes after both early
    requests were granted: [2,3] is released first, and [0,1] and [4,5]
    end up live. *)
Theorem toggle_while_held_leaves_two_live :
  streamRef (@pressedEarly desktop) = Some {| getTracks := [0; 1]%nat |} /\
  liveStreams (@pressedEarly desktop) = [ {| getTracks := [0; 1]%nat |} ] /\
  pendingMedia (@pressedEarly desktop) = [Flexible environment] /\
  trace (@step desktop CameraButton (@pressedEarly desktop))
    = trace (@pressedEarly desktop) ++
      [TrackStop 0%nat; TrackStop 1%nat; TrackStop 0%nat; TrackStop 1%nat;
       GetUserMedia (Flexible user)] /\
  liveStreams (@step desktop CameraButton (@pressedEarly desktop)) = [] /\
  liveStreams
    (@run desktop [CameraButton; MediaSettled 0 true; MediaSettled 0 true]
       (@pressedEarly desktop))
    = [ {| getTracks := [2; 3]%nat |}; {| getTracks := [4; 5]%nat |} ] /\
  streamRef
    (@run desktop [CameraButton; MediaSettled 0 true; MediaSettled 0 true]
       (@pressedEarly desktop))
    = Some {| getTracks := [4; 5]%nat |} /\
  streamRef (@run desktop [MediaSettled 0 true] (@pressedEarly desktop))
    = Some {| getTracks := [2; 3]%nat |} /\
  liveStreams
    (@run desktop [MediaSettled 0 true; CameraButton; MediaSettled 0 true]
       (@pressedEarly desktop))
    = [ {| getTracks := [0; 1]%nat |}; {| getTracks := [4; 5]%nat |} ].
Proof.
  repeat (match goal with |- _ /\ _ => split end); vm_compute; reflexivity.
Qed.

(** C8.  With no camera stream present, [startRecording] is not a no-op
    once a stream has been granted and released.  In [cameraLost] no stream
    is held, live or pending, but the [stream] cell still holds the
    released one, since nothing ever sets it back to null.  The guard
    passes: the buffered chunks and the result handle are dropped, and a
    recorder is created on the ended stream and put in
    [mediaRecorderRef]. *)
Theorem startRecording_with_stale_stream_is_not_noop :
  streamRef (@cameraLost desktop) = None /\
  liveStreams (@cameraLost desktop) = [] /\
  pendingMedia (@cameraLost desktop) = [] /\
  stream (@cameraLost desktop) = Some frontCamera /\
  isLive (endedTracks (@cameraLost desktop)) frontCamera = false /\
  isRecording (@cameraLost desktop) = false /\
  videoUrl (@cameraLost desktop) = Some 0%nat /\
  List.length (recordedChunksRef (@cameraLost desktop)) = 2%nat /\
  List.length (recorders (@cameraLost desktop)) = 1%nat /\
  videoUrl (@startRecording desktop (@cameraLost desktop)) = None /\
  recordedChunksRef (@startRecording desktop (@cameraLost desktop)) = [] /\
  List.length (recorders (@startRecording desktop (@cameraLost desktop)))
    = 2%nat /\
  mediaRecorderRef (@startRecording desktop (@cameraLost desktop))
    = Some 1%nat /\
  option_map recStream
    (nth_error (recorders (@startRecording desktop (@cameraLost desktop)))
       1%nat) = Some frontCamera /\
  @startRecording desktop (@cameraLost desktop) <> @cameraLost desktop.
Proof.
  repeat (match goal with |- _ /\ _ => split end);
    try (vm_compute; reflexivity).
  intros H. apply (f_equal videoUrl) in H. vm_compute in H. discriminate H.
Qed.
